(** * Workflow manager: ordering, eligibility and dependency guard

    A shallow embedding of the decision logic of the workflow board
    (drag start / drag end handlers, list filter), of the quick-transition
    permission check, of the dependency manager and of the plugin
    constructor, followed by the properties established about them. *)

From Stdlib Require Import List String Ascii Bool Arith ZArith Lia Sorted Permutation.
From Stdlib Require Import DecimalString.
Import ListNotations.
Local Open Scope string_scope.
Local Open Scope list_scope.

(** ** JavaScript values and array helpers *)

Module Js.

(** Truthiness of a string: the empty string is falsy. *)
Definition truthy (s : string) : bool :=
  negb (s =? EmptyString).

(** Truthiness of a possibly-undefined string. *)
Definition truthyOpt (o : option string) : bool :=
  match o with
  | Some s => truthy s
  | None => false
  end.

(** [a || d] on a possibly-undefined string. *)
Definition orElse (o : option string) (d : string) : string :=
  match o with
  | Some s => if truthy s then s else d
  | None => d
  end.

(** [xs.includes(x)] on an array of strings. *)
Definition includes (xs : list string) (x : string) : bool :=
  existsb (fun y => y =? x) xs.

(** [xs?.includes(x)] read as a condition: undefined is falsy. *)
Definition includesOpt (xs : option (list string)) (x : string) : bool :=
  match xs with
  | Some l => includes l x
  | None => false
  end.

(** [xs?.length] read as a condition: undefined and 0 are falsy. *)
Definition hasLength {A} (xs : option (list A)) : bool :=
  match xs with
  | Some (_ :: _) => true
  | _ => false
  end.

(** [xs.length] read as a condition. *)
Definition nonEmpty {A} (xs : list A) : bool :=
  match xs with
  | [] => false
  | _ :: _ => true
  end.

(** [xs.findIndex(p)]: the first index satisfying [p], or -1. *)
Fixpoint findIndexFrom {A} (p : A -> bool) (xs : list A) (i : Z) : Z :=
  match xs with
  | [] => (-1)%Z
  | x :: r => if p x then i else findIndexFrom p r (i + 1)%Z
  end.

Definition findIndex {A} (p : A -> bool) (xs : list A) : Z :=
  findIndexFrom p xs 0%Z.

(** [a.localeCompare(b)], modelled as the code-unit lexicographic order
    (locale tailoring is not modelled). *)
Definition localeCompare (a b : string) : comparison :=
  String.compare a b.

(** [xs.sort(cmp)]: a stable sort; an element moves before another one only
    when the comparator returns a positive number for the pair. *)
Fixpoint insertBy {A} (cmp : A -> A -> comparison) (x : A) (xs : list A) : list A :=
  match xs with
  | [] => [x]
  | y :: r =>
      match cmp x y with
      | Gt => y :: insertBy cmp x r
      | _ => x :: xs
      end
  end.

Definition sort {A} (cmp : A -> A -> comparison) (xs : list A) : list A :=
  fold_right (insertBy cmp) [] xs.

(** The last element of an array, [xs[xs.length - 1]]. *)
Definition lastOpt {A} (xs : list A) : option A :=
  nth_error xs (List.length xs - 1).

End Js.

(** Strict order on rank strings, as the board compares them. *)
Definition rank_lt (a b : string) : Prop :=
  Js.localeCompare a b = Lt.

(** ** Data model (src/types, as used by the components) *)

Module State.
Record t := mk
  { id : string
  ; title : string
  ; roles : option (list string)
  ; transitions : option (list string)
  ; requireAssignment : bool   (* absent reads as false: only its truthiness is inspected *)
  ; requireValidation : bool }.
End State.

Module Role.
Record t := mk { name : string }.
End Role.

Module User.
Record t := mk
  { id : string
  ; roles : option (list Role.t) }.
End User.

Module Metadata.
Record t := mk
  { documentId : string
  ; state : string
  ; assignees : option (list string)
  ; orderRank : option string }.
End Metadata.

Module Doc.
Record t := mk
  { _id : option string
  ; _type : string
  ; _metadata : option Metadata.t }.

(** [item._metadata?.orderRank] *)
Definition orderRank (d : t) : option string :=
  match _metadata d with
  | Some m => Metadata.orderRank m
  | None => None
  end.

(** [item._metadata?.assignees] *)
Definition assignees (d : t) : option (list string) :=
  match _metadata d with
  | Some m => Metadata.assignees m
  | None => None
  end.

(** [item._metadata?.state === stateId] *)
Definition inState (stateId : string) (d : t) : bool :=
  match _metadata d with
  | Some m => Metadata.state m =? stateId
  | None => false
  end.

(** [item._metadata?.documentId === draggableId] *)
Definition hasDocumentId (draggableId : string) (d : t) : bool :=
  match _metadata d with
  | Some m => Metadata.documentId m =? draggableId
  | None => false
  end.
End Doc.

(** ** Dependency manager (src/components/DependencyManager.tsx) *)

Module DependencyManager.

Inductive AddOutcome :=
| RejectedDuplicate                          (* toast 'Dependency already added' *)
| RejectedCircular                           (* toast 'Circular dependency' *)
| Added (newDependencies : list string).     (* onDependenciesChange(newDependencies) *)

(** The component's props: its own [documentId] and [currentDependencies]. *)
Record Props := mkProps
  { documentId : string
  ; currentDependencies : list string }.

Definition hasCircularDependency (p : Props) (newDependencyId : string) : bool :=
  Js.includes (currentDependencies p) newDependencyId.

(** The handler's parameter shadows the prop of the same name: it is the
    candidate's id. *)
Definition handleAddDependency (p : Props) (candidateId : string) : AddOutcome :=
  if Js.includes (currentDependencies p) candidateId then RejectedDuplicate
  else if hasCircularDependency p candidateId then RejectedCircular
  else Added (currentDependencies p ++ [candidateId]).

(** Returns the list handed to [onDependenciesChange]. *)
Definition handleRemoveDependency (p : Props) (targetId : string) : list string :=
  filter (fun id => negb (id =? targetId)) (currentDependencies p).

(** The contracts of the specification, read on the handlers. *)
Definition addDependency (doc candidate : string) (deps : list string) : AddOutcome :=
  handleAddDependency (mkProps doc deps) candidate.

Definition removeDependency (doc target : string) (deps : list string) : list string :=
  handleRemoveDependency (mkProps doc deps) target.

End DependencyManager.

(** ** Quick-transition permission check
    (src/components/QuickEditModal.tsx and src/components/CalendarView.tsx
    carry the same function; [documentAssignees] is [document.assignees],
    respectively [event.assignees]) *)

Module Permissions.

(** [currentUser.roles.some(userRole => targetState.roles.includes(userRole.name))] *)
Definition someRoleListed (userRoles : list Role.t) (stateRoles : list string) : bool :=
  existsb (fun userRole => Js.includes stateRoles (Role.name userRole)) userRoles.

(** The role half of the check. *)
Definition userRoleCanUpdateState (currentUser : User.t) (targetState : State.t) : bool :=
  if Js.hasLength (User.roles currentUser) && Js.hasLength (State.roles targetState)
  then
    match User.roles currentUser, State.roles targetState with
    | Some ur, Some sr => someRoleListed ur sr
    | _, _ => false
    end
  else
    (* targetState.roles?.length !== 0 *)
    match State.roles targetState with
    | Some [] => false
    | _ => true
    end.

(** The assignment half of the check. *)
Definition userAssignmentCanUpdateState (currentUser : User.t) (targetState : State.t)
  (documentAssignees : option (list string)) : bool :=
  if State.requireAssignment targetState
  then Js.hasLength documentAssignees && Js.includesOpt documentAssignees (User.id currentUser)
  else true.

(** The truthiness of the value the function returns. *)
Definition canUserTransitionToState (currentUser : option User.t)
  (targetState : option State.t) (documentAssignees : option (list string)) : bool :=
  match currentUser, targetState with
  | Some u, Some s =>
      userRoleCanUpdateState u s && userAssignmentCanUpdateState u s documentAssignees
  | _, _ => false
  end.

(** The contract as the specification words it: (a) the target's role list is
    empty or absent, or the user holds one of the listed roles; and (b) the
    target does not require assignment, or the user's id is among the
    assignees. *)
Definition holdsListedRole (u : User.t) (listed : list string) : bool :=
  match User.roles u with
  | Some ur => someRoleListed ur listed
  | None => false
  end.

Definition canUserTransitionToState_spec (u : User.t) (s : State.t)
  (documentAssignees : option (list string)) : bool :=
  (match State.roles s with
   | None | Some [] => true
   | Some listed => holdsListedRole u listed
   end)
  &&
  (negb (State.requireAssignment s) || Js.includesOpt documentAssignees (User.id u)).

End Permissions.

(** ** List filter (helpers/filterItemsAndSort) *)

Module Filter.

(** The user rule of the filter. *)
Definition byUser (selectedUsers : list string) (item : Doc.t) : bool :=
  if negb (Js.nonEmpty selectedUsers) then true
  else
    let hasAssignees := Js.hasLength (Doc.assignees item) in
    if hasAssignees
    then
      match Doc.assignees item with
      | Some l => existsb (fun assignee => Js.includes selectedUsers assignee) l
      | None => false
      end
    else false.

(** The schema-type rule of the filter. *)
Definition byType (selectedSchemaTypes : option (list string)) (item : Doc.t) : bool :=
  match selectedSchemaTypes with
  | None => true
  | Some l => if Js.nonEmpty l then Js.includes l (Doc._type item) else false
  end.

Definition byRank (a b : Doc.t) : comparison :=
  Js.localeCompare (Js.orElse (Doc.orderRank a) "0") (Js.orElse (Doc.orderRank b) "0").

(** [items] is [None] when the argument is not an array. *)
Definition filterItemsAndSort (items : option (list Doc.t)) (stateId : string)
  (selectedUsers : list string) (selectedSchemaTypes : option (list string)) : list Doc.t :=
  match items with
  | None | Some [] => []
  | Some l =>
      Js.sort byRank
        (filter (byType selectedSchemaTypes)
          (filter (byUser selectedUsers)
            (filter (Doc.inState stateId)
              (filter (fun item => Js.truthyOpt (Doc._id item)) l))))
  end.

End Filter.

(** ** The rank library (npm package lexorank, an external dependency)

    The board only calls the operations below; they are taken as a
    parameter.  [parse] and [between] may throw, which [None] stands for. *)

Class LexoRankOps := mkLexoRank
  { LexoRank : Type
  ; lr_min : LexoRank                                   (* LexoRank.min() *)
  ; lr_max : LexoRank                                   (* LexoRank.max() *)
  ; lr_parse : string -> option LexoRank                (* LexoRank.parse(s) *)
  ; lr_toString : LexoRank -> string                    (* r.toString() *)
  ; lr_genNext : LexoRank -> LexoRank                   (* r.genNext() *)
  ; lr_genPrev : LexoRank -> LexoRank                   (* r.genPrev() *)
  ; lr_between : LexoRank -> LexoRank -> option LexoRank  (* r.between(other) *) }.

(** Modelled from the spec: the key space of section 3 (order-preserving and
    densely insertable; the package's own source is not part of the
    repository).  Only the two facts the properties below rely on are
    stated: a rank strictly between two ordered ranks is produced, and the
    rank generated after the minimum lies strictly above it. *)
Class LexoRankLaws (L : LexoRankOps) : Prop :=
  { between_lt : forall a b : LexoRank,
      rank_lt (lr_toString a) (lr_toString b) ->
      exists r, lr_between a b = Some r /\
                rank_lt (lr_toString a) (lr_toString r) /\
                rank_lt (lr_toString r) (lr_toString b)
  ; genNext_min_lt : rank_lt (lr_toString lr_min) (lr_toString (lr_genNext lr_min)) }.

(** ** The board (unnamed/part_003, WorkflowTool) *)

Module Board.

Record DraggableLocation := mkLoc
  { droppableId : string
  ; index : nat }.

Record DragStart := mkDragStart
  { start_draggableId : string
  ; start_source : DraggableLocation }.

Record DropResult := mkDropResult
  { draggableId : string
  ; source : DraggableLocation
  ; destination : option DraggableLocation }.

(** The two pieces of component state the drag handlers write. *)
Record DragState := mkDragState
  { undroppableStates : list string
  ; draggingFrom : string }.

(** *** handleDragStart *)

(** Rule 1: states that require assignment, pushed when the user is not
    assigned to the dragged document. *)
Definition statesThatRequireAssignmentIds (states : list State.t) : list string :=
  map State.id (filter State.requireAssignment states).

(** [document._metadata?.assignees ?? []] *)
Definition documentAssignees (document : Doc.t) : list string :=
  match Doc.assignees document with
  | Some l => l
  | None => []
  end.

(** [user?.id ? documentAssignees.includes(user.id) : false] *)
Definition userIsAssignedToDocument (user : option User.t) (document : Doc.t) : bool :=
  match user with
  | Some u =>
      if Js.truthy (User.id u)
      then Js.includes (documentAssignees document) (User.id u)
      else false
  | None => false
  end.

Definition assignmentExclusions (states : list State.t) (user : option User.t)
  (document : Doc.t) : list string :=
  if Js.nonEmpty (statesThatRequireAssignmentIds states)
  then if negb (userIsAssignedToDocument user document)
       then statesThatRequireAssignmentIds states
       else []
  else [].

(** Rule 2: states outside the source state's transition list. *)
Definition statesThatCannotBeTransitionedToIds (states : list State.t) (state : State.t)
  : list string :=
  if Js.hasLength (State.transitions state)
  then map State.id
         (filter (fun s => negb (Js.includesOpt (State.transitions state) (State.id s))) states)
  else [].

(** The list the handler hands to [setUndroppableStates]. *)
Definition undroppableExceptSelf (states : list State.t) (user : option User.t)
  (document : Doc.t) (state : State.t) (currentStateId : string) : list string :=
  let undroppableStateIds :=
    assignmentExclusions states user document
    ++ statesThatCannotBeTransitionedToIds states state in
  filter (fun id => negb (id =? currentStateId)) undroppableStateIds.

Definition handleDragStart (data : list Doc.t) (states : list State.t)
  (user : option User.t) (start : DragStart) (st : DragState) : DragState :=
  let currentStateId := droppableId (start_source start) in
  let st1 := mkDragState (undroppableStates st) currentStateId in
  match find (Doc.hasDocumentId (start_draggableId start)) data,
        find (fun s => State.id s =? currentStateId) states with
  | Some document, Some state =>
      mkDragState (undroppableExceptSelf states user document state currentStateId)
                  currentStateId
  | _, _ => st1
  end.

(** *** handleDragEnd *)

Inductive DragEndOutcome :=
| Ignored                      (* no destination, or position unchanged *)
| NoData                       (* toast 'Document data is not available' *)
| Thrown                       (* the rank library threw *)
| Moved (newOrder : string).   (* move(draggableId, destination, states, newOrder) *)

Definition bind {A B} (o : option A) (f : A -> option B) : option B :=
  match o with
  | Some a => f a
  | None => None
  end.

Notation "x <- o ;; k" := (bind o (fun x => k))
  (at level 61, o at next level, right associativity).

Section Allocator.
Context {L : LexoRankOps}.

(** The rank computed for the dropped card (the [newOrder] variable). *)
Definition newOrder (destinationStateItems : list Doc.t) (destinationStateIndex : Z)
  (statesLength : nat) (destinationIndex : nat)
  (globalStateMinimumRank globalStateMaximumRank : string) : option string :=
  if negb (Js.nonEmpty destinationStateItems) then
    if (destinationStateIndex =? 0)%Z
    then Some (lr_toString lr_min)
    else Some (lr_toString (lr_genNext lr_min))
  else if (destinationIndex =? 0)%nat then
    let firstItemOrderRank :=
      match hd_error destinationStateItems with
      | Some d => Doc.orderRank d
      | None => None
      end in
    if Js.truthyOpt firstItemOrderRank then
      r <- bind firstItemOrderRank lr_parse ;; Some (lr_toString (lr_genPrev r))
    else if (destinationStateIndex =? 0)%Z
    then Some (lr_toString lr_min)
    else
      globalMinRank <- lr_parse globalStateMinimumRank ;;
      if lr_toString lr_min =? lr_toString globalMinRank
      then Some (lr_toString (lr_genNext lr_min))
      else r <- lr_between globalMinRank lr_min ;; Some (lr_toString r)
  else if (destinationIndex + 1 =? List.length destinationStateItems)%nat then
    let lastItemOrderRank :=
      match Js.lastOpt destinationStateItems with
      | Some d => Doc.orderRank d
      | None => None
      end in
    if Js.truthyOpt lastItemOrderRank then
      r <- bind lastItemOrderRank lr_parse ;; Some (lr_toString (lr_genNext r))
    else if (destinationStateIndex =? Z.of_nat statesLength - 1)%Z
    then Some (lr_toString lr_max)
    else
      globalMaxRank <- lr_parse globalStateMaximumRank ;;
      if lr_toString lr_max =? lr_toString globalMaxRank
      then Some (lr_toString (lr_genPrev lr_max))
      else r <- lr_between globalMaxRank lr_max ;; Some (lr_toString r)
  else
    let itemBeforeRank :=
      bind (nth_error destinationStateItems (destinationIndex - 1)) Doc.orderRank in
    itemBeforeRankParsed <-
      (if Js.truthyOpt itemBeforeRank then bind itemBeforeRank lr_parse
       else if (destinationStateIndex =? 0)%Z then Some lr_min
       else lr_parse globalStateMinimumRank) ;;
    let itemAfterRank :=
      bind (nth_error destinationStateItems destinationIndex) Doc.orderRank in
    itemAfterRankParsed <-
      (if Js.truthyOpt itemAfterRank then bind itemAfterRank lr_parse
       else if (destinationStateIndex =? Z.of_nat statesLength - 1)%Z then Some lr_max
       else lr_parse globalStateMaximumRank) ;;
    if lr_toString itemBeforeRankParsed =? lr_toString itemAfterRankParsed
    then Some (lr_toString (lr_genNext itemBeforeRankParsed))
    else r <- lr_between itemBeforeRankParsed itemAfterRankParsed ;; Some (lr_toString r).

Definition handleDragEnd (data : list Doc.t) (states : list State.t)
  (result : DropResult) : DragEndOutcome :=
  match destination result with
  | None => Ignored
  | Some dest =>
      if (droppableId dest =? droppableId (source result))
         && (index dest =? index (source result))%nat
      then Ignored
      else if negb (Js.nonEmpty data) then NoData
      else
        let destinationStateItems :=
          Filter.filterItemsAndSort (Some data) (droppableId dest) [] None in
        let destinationStateIndex :=
          Js.findIndex (fun s => State.id s =? droppableId dest) states in
        let globalStateMinimumRank :=
          Js.orElse (bind (hd_error data) Doc.orderRank) "0" in
        let globalStateMaximumRank :=
          Js.orElse (bind (Js.lastOpt data) Doc.orderRank) "0" in
        match newOrder destinationStateItems destinationStateIndex (List.length states)
                (index dest) globalStateMinimumRank globalStateMaximumRank with
        | Some r => Moved r
        | None => Thrown
        end
  end.

End Allocator.

End Board.

(** ** Plugin construction (unnamed/part_000, workflowManager) *)

Module Plugin.

(** A property of a configuration object: the key may be missing, or carry
    [undefined], or carry a value. *)
Inductive prop (A : Type) :=
| Absent
| Undefined
| Value (a : A).
Arguments Absent {A}.
Arguments Undefined {A}.
Arguments Value {A} a.

Record WorkflowConfig := mkConfig
  { schemaTypes : prop (list string)
  ; states : prop (list State.t) }.

(** [{...d, ...c}] on one key: an own key of [c], whatever its value,
    replaces the one of [d]. *)
Definition spread {A} (d c : prop A) : prop A :=
  match c with
  | Absent => d
  | _ => c
  end.

Record PluginOptions := mkPlugin
  { name : string
  ; plugin_schemaTypes : list string
  ; plugin_states : list State.t }.

(** The two errors the constructor throws:
    'Workflow plugin: Missing "states" in config' and
    'Workflow plugin: Missing "schemaTypes" in config'. *)
Inductive ConfigError :=
| MissingStates
| MissingSchemaTypes.

Inductive Construction :=
| Throws (e : ConfigError)
| Built (p : PluginOptions).

(** [xs?.length] on a destructured value, read as a condition. *)
Definition hasLength {A} (p : prop (list A)) : bool :=
  match p with
  | Value (_ :: _) => true
  | _ => false
  end.

(** The array behind a destructured value that passed the length test. *)
Definition arrayOf {A} (p : prop (list A)) : list A :=
  match p with
  | Value l => l
  | _ => []
  end.

(** [DEFAULT_CONFIG] (module constants) is a parameter; [config] is [None]
    when the plugin is called without an argument. *)
Definition workflowManager (DEFAULT_CONFIG : WorkflowConfig)
  (config : option WorkflowConfig) : Construction :=
  let config := match config with Some c => c | None => DEFAULT_CONFIG end in
  let schemaTypes := spread (schemaTypes DEFAULT_CONFIG) (schemaTypes config) in
  let states := spread (states DEFAULT_CONFIG) (states config) in
  if negb (hasLength states) then Throws MissingStates
  else if negb (hasLength schemaTypes) then Throws MissingSchemaTypes
  else Built (mkPlugin "sanity-plugin-workflow-manager" (arrayOf schemaTypes) (arrayOf states)).

(** Modelled from the spec: the constants module is not among the sources.
    The default states are the three listed in README.md (Default States,
    used "if no custom states are provided"); the default list of schema
    types is taken empty, the README calling that key required. *)
Definition README_DEFAULT_CONFIG : WorkflowConfig :=
  mkConfig (Value [])
    (Value
      [ State.mk "inReview" "In review" (Some ["editor"; "administrator"])
          (Some ["changesRequested"; "approved"]) false false
      ; State.mk "changesRequested" "Changes requested" (Some ["editor"; "administrator"])
          (Some ["approved"]) false false
      ; State.mk "approved" "Approved" (Some ["administrator"])
          (Some ["changesRequested"]) true false ]).

End Plugin.

(** ** A concrete key space

    Binary keys: the minimum is "0", the maximum is "2", and every other key
    is a word over 0 and 1 followed by a closing 1.  Under the string order
    the keys are dense between the two bounds.  The instance shows that the
    contract [LexoRankLaws] can be met and serves to run the board on
    concrete inputs. *)

Module BinaryKeys.

Inductive key :=
| Min
| Max
| Key (bits : list bool).

Definition digit (b : bool) : nat := if b then 1 else 0.

(** The digits of a key, most significant first. *)
Definition chars (k : key) : list nat :=
  match k with
  | Min => [0]
  | Max => [2]
  | Key bs => map digit bs ++ [1]
  end.

Definition glyph (n : nat) : ascii :=
  match n with
  | 0 => "0"
  | 1 => "1"
  | _ => "2"
  end%char.

Fixpoint render (ds : list nat) : string :=
  match ds with
  | [] => EmptyString
  | d :: r => String (glyph d) (render r)
  end.

Definition toString (k : key) : string := render (chars k).

(** Lexicographic comparison of digit lists. *)
Fixpoint lexcmp (xs ys : list nat) : comparison :=
  match xs, ys with
  | [], [] => Eq
  | [], _ :: _ => Lt
  | _ :: _, [] => Gt
  | x :: xr, y :: yr =>
      match Nat.compare x y with
      | Eq => lexcmp xr yr
      | c => c
      end
  end.

(** The bits of the word that spells a key other than the maximum. *)
Definition spelled (k : key) : list bool :=
  match k with
  | Min => [false]
  | Max => []
  | Key bs => bs ++ [true]
  end.

(** A key strictly between [lo] and [hi], for [lo] below [hi]. *)
Definition mid (lo hi : key) : key :=
  Key (spelled lo ++ repeat false (S (List.length (chars hi)))).

Definition between (a b : key) : option key :=
  match lexcmp (chars a) (chars b) with
  | Lt => Some (mid a b)
  | Gt => Some (mid b a)
  | Eq => None
  end.

Definition genNext (k : key) : key :=
  match k with
  | Max => Max
  | _ => mid k Max
  end.

Definition genPrev (k : key) : key :=
  match k with
  | Min => Min
  | _ => mid Min k
  end.

Fixpoint readBits (s : string) : option (list bool) :=
  match s with
  | EmptyString => Some []
  | String c r =>
      match readBits r with
      | Some bs =>
          if Ascii.eqb c "0" then Some (false :: bs)
          else if Ascii.eqb c "1" then Some (true :: bs)
          else None
      | None => None
      end
  end.

Definition parse (s : string) : option key :=
  if s =? "0" then Some Min
  else if s =? "2" then Some Max
  else
    match readBits s with
    | Some bs =>
        match rev bs with
        | true :: r => Some (Key (rev r))
        | _ => None
        end
    | None => None
    end.

#[export] Instance ops : LexoRankOps :=
  mkLexoRank key Min Max parse toString genNext genPrev between.

(** Digit lists over 0, 1 and 2. *)
Definition small (ds : list nat) : Prop := Forall (fun d => d <= 2) ds.

End BinaryKeys.

(** ** Sample boards *)

Module Examples.
Import Board.

(** A board with two columns; the review column requires assignment. *)
Definition draft : State.t :=
  State.mk "draft" "Draft" None None false false.

Definition review : State.t :=
  State.mk "review" "In review" None None true false.

Definition ranked (documentId stateId : string) (assignees : list string)
  (orderRank : string) : Doc.t :=
  Doc.mk (Some documentId) "post"
    (Some (Metadata.mk documentId stateId (Some assignees) (Some orderRank))).

Definition card (documentId stateId : string) (assignees : list string) : Doc.t :=
  ranked documentId stateId assignees "0|hzzzzz:".

Definition idle : DragState := mkDragState [] EmptyString.

(** One card in the draft column, dropped on the empty review column. *)
Definition lonelyBoard : list Doc.t := [ranked "d0" "draft" [] "01"].

Definition dropOnReview (i : nat) : DropResult :=
  mkDropResult "d0" (mkLoc "draft" 0) (Some (mkLoc "review" i)).

(** A review column of three cards with distinct binary keys. *)
Definition orderedBoard : list Doc.t :=
  [ ranked "d0" "draft" [] "0001"
  ; ranked "d1" "review" [] "01"
  ; ranked "d2" "review" [] "011"
  ; ranked "d3" "review" [] "1" ].

(** A review column whose first two cards share a key. *)
Definition tiedBoard : list Doc.t :=
  [ ranked "d0" "draft" [] "0001"
  ; ranked "d1" "review" [] "01"
  ; ranked "d2" "review" [] "01"
  ; ranked "d3" "review" [] "1" ].

End Examples.

(** ** Orders used to state properties of the list filter *)

Module Order.

(** [a] is not after [b] in the order the filter sorts by. *)
Definition le_rank (a b : Doc.t) : Prop := Filter.byRank a b <> Gt.

(** The four rules of the filter, taken together. *)
Definition keeps (stateId : string) (selectedUsers : list string)
  (selectedSchemaTypes : option (list string)) (item : Doc.t) : bool :=
  Js.truthyOpt (Doc._id item) && Doc.inState stateId item
  && Filter.byUser selectedUsers item && Filter.byType selectedSchemaTypes item.

End Order.

(** ** Selections kept by the board and the calendar
    (unnamed/part_003: toggleSelectedUser, toggleSelectedSchemaType,
    toggleInvalidDocumentId; QuickEditModal: handleAssigneeToggle;
    CalendarView: handleWorkflowStateToggle) *)

Module Selection.

(** [prev.includes(x) ? prev.filter((u) => u !== x) : [...prev, x]] *)
Definition toggle (prev : list string) (x : string) : list string :=
  if Js.includes prev x
  then filter (fun u => negb (u =? x)) prev
  else prev ++ [x].

Inductive InvalidAction := ADD | REMOVE.

(** [action === 'ADD' ? [...prev, docId] : prev.filter((id) => id !== docId)] *)
Definition toggleInvalidDocumentId (prev : list string) (docId : string)
  (action : InvalidAction) : list string :=
  match action with
  | ADD => prev ++ [docId]
  | REMOVE => filter (fun id => negb (id =? docId)) prev
  end.

End Selection.

(** ** The users assigned somewhere on the board
    (unnamed/part_003: uniqueAssignedUsers and the effect that prunes the
    selected users) *)

Module AssignedUsers.

Record ProjectUser := mkUser
  { id : string
  ; displayName : string }.

(** One step of the reducer. *)
Definition collect (acc : list string) (item : Doc.t) : list string :=
  let assignees := Board.documentAssignees item in
  let newAssignees :=
    if Js.nonEmpty assignees
    then filter (fun a => negb (Js.includes acc a)) assignees
    else [] in
  if Js.nonEmpty newAssignees then acc ++ newAssignees else acc.

(** [data.reduce(..., [])] *)
Definition uniqueUserIds (data : list Doc.t) : list string :=
  fold_left collect data [].

Definition uniqueAssignedUsers (users : list ProjectUser) (data : list Doc.t)
  : list ProjectUser :=
  if negb (Js.nonEmpty data) then []
  else filter (fun u => Js.includes (uniqueUserIds data) (id u)) users.

(** The effect run when [data] changes: the new value of [selectedUserIds]. *)
Definition pruneSelectedUserIds (data : list Doc.t) (prev : list string) : list string :=
  if negb (Js.nonEmpty data) then []
  else filter (fun userId => Js.includes (uniqueUserIds data) userId) prev.

End AssignedUsers.

(** ** The dependencies shown by the dependency manager
    (src/components/DependencyManager.tsx: dependencyDocuments) *)

Module DependencyView.

Record DocumentOption := mkOption
  { id : string
  ; title : string
  ; documentType : string
  ; scheduledDate : option string
  ; workflowState : string }.

(** [currentDependencies.map(depId => availableDocuments.find(doc => doc.id === depId))
     .filter(Boolean)] *)
Definition dependencyDocuments (currentDependencies : list string)
  (availableDocuments : list DocumentOption) : list DocumentOption :=
  flat_map
    (fun found => match found with Some doc => [doc] | None => [] end)
    (map (fun depId => find (fun doc => id doc =? depId) availableDocuments)
         currentDependencies).

End DependencyView.

(** ** Assigning users (unnamed/part_001, UserAssignment, and the
    UserSelectMenu of src/lib/compatibility.ts) *)

Module UserAssignment.

Inductive ToastTag :=
| CouldNotFindUser          (* error 'Could not find User' *)
| UserAlreadyAssigned       (* warning 'User already assigned' *)
| AddedToAssignees          (* success 'Added ... to assignees' *)
| FailedToAddAssignee       (* error 'Failed to add assignee' *)
| UserNotAssigned           (* warning 'User not assigned' *)
| RemovedFromAssignees      (* success 'Removed ... from assignees' *)
| FailedToRemoveAssignee.   (* error 'Failed to remove assignee' *)

Record Props := mkProps
  { users : list AssignedUsers.ProjectUser   (* userList.users *)
  ; assignees : option (list string)         (* None: not an array *)
  ; documentId : string }.

(** [Array.isArray(assignees) ? assignees : []] *)
Definition safeAssignees (p : Props) : list string :=
  match assignees p with
  | Some l => l
  | None => []
  end.

(** [new Set(prev).add(x)] and [newSet.delete(x)], a set being listed in
    insertion order. *)
Definition setAdd (s : list string) (x : string) : list string :=
  if Js.includes s x then s else s ++ [x].

Definition setDelete (s : list string) (x : string) : list string :=
  filter (fun y => negb (y =? x)) s.

(** What one call has done once its commit has settled: the set of users
    being processed, the lists handed to [onAssigneesChange] in order,
    whether a patch was sent, and the toast pushed. *)
Record Run := mkRun
  { processingUsers : list string
  ; assigneesChanges : list (list string)
  ; patchSent : bool
  ; toast : option ToastTag }.

Definition knownUser (p : Props) (userId : string) : bool :=
  match find (fun u => AssignedUsers.id u =? userId) (users p) with
  | Some _ => true
  | None => false
  end.

(** [commitOk] tells whether the commit of the patch succeeds. *)
Definition addAssignee (p : Props) (processing : list string) (userId : string)
  (commitOk : bool) : Run :=
  if Js.includes processing userId then mkRun processing [] false None
  else if negb (Js.truthy userId) || negb (knownUser p userId)
  then mkRun processing [] false (Some CouldNotFindUser)
  else if Js.includes (safeAssignees p) userId
  then mkRun processing [] false (Some UserAlreadyAssigned)
  else
    let processing1 := setAdd processing userId in
    let newAssignees := safeAssignees p ++ [userId] in
    if commitOk
    then mkRun (setDelete processing1 userId) [newAssignees] true (Some AddedToAssignees)
    else mkRun (setDelete processing1 userId) [newAssignees; safeAssignees p] true
           (Some FailedToAddAssignee).

Definition removeAssignee (p : Props) (processing : list string) (userId : string)
  (commitOk : bool) : Run :=
  if Js.includes processing userId then mkRun processing [] false None
  else if negb (Js.truthy userId) || negb (knownUser p userId)
  then mkRun processing [] false (Some CouldNotFindUser)
  else if negb (Js.includes (safeAssignees p) userId)
  then mkRun processing [] false (Some UserNotAssigned)
  else
    let processing1 := setAdd processing userId in
    let newAssignees := filter (fun id => negb (id =? userId)) (safeAssignees p) in
    if commitOk
    then mkRun (setDelete processing1 userId) [newAssignees] true (Some RemovedFromAssignees)
    else mkRun (setDelete processing1 userId) [newAssignees; safeAssignees p] true
           (Some FailedToRemoveAssignee).

(** The click handler of the menu, wired as UserAssignment wires it:
    [value] is [safeAssignees], [processingUsers] is the set as an array. *)
Definition handleUserToggle (p : Props) (processing : list string) (userId : string)
  (commitOk : bool) : Run :=
  if Js.includes processing userId then mkRun processing [] false None
  else if Js.includes (safeAssignees p) userId
  then removeAssignee p processing userId commitOk
  else addAssignee p processing userId commitOk.

(** The guards, taken together: the user can be added, or removed. *)
Definition canAdd (p : Props) (processing : list string) (userId : string) : bool :=
  negb (Js.includes processing userId) && Js.truthy userId && knownUser p userId
  && negb (Js.includes (safeAssignees p) userId).

Definition canRemove (p : Props) (processing : list string) (userId : string) : bool :=
  negb (Js.includes processing userId) && Js.truthy userId && knownUser p userId
  && Js.includes (safeAssignees p) userId.

End UserAssignment.

(** ** The assignees badge (unnamed/part_004, AssigneesBadge) *)

Module AssigneesBadge.

(** What [useWorkflowContext(documentId)] returns, as far as the badge reads
    it; [error] is the truthiness of the error. *)
Record Context := mkContext
  { metadata : option Metadata.t
  ; loading : bool
  ; error : bool }.

(** The four shapes of the label: 'Unassigned', 'Assigned to Me',
    'Me and n other(s)' and 'n assigned'. *)
Inductive Label :=
| Unassigned
| AssignedToMe
| MeAndOthers (n : nat)
| CountAssigned (n : nat).

Definition render (l : Label) : string :=
  match l with
  | Unassigned => "Unassigned"
  | AssignedToMe => "Assigned to Me"
  | MeAndOthers n =>
      "Me and " ++ NilEmpty.string_of_uint (Nat.to_uint n) ++ " "
      ++ (if (n =? 1)%nat then "other" else "others")
  | CountAssigned n => NilEmpty.string_of_uint (Nat.to_uint n) ++ " assigned"
  end%string.

Record Badge := mkBadge
  { label : Label
  ; title : option string
  ; color : option string }.

(** [assignees.some((assignee) => assignee === currentUser.id)] *)
Definition hasMe (currentUser : option User.t) (assignees : list string) : bool :=
  match currentUser with
  | Some u => existsb (fun assignee => assignee =? User.id u) assignees
  | None => false
  end.

Definition AssigneesBadge (ctx : Context) (users : list AssignedUsers.ProjectUser)
  (currentUser : option User.t) : option Badge :=
  match metadata ctx with
  | None => None
  | Some m =>
      if loading ctx || error ctx then None
      else if negb (Js.hasLength (Metadata.assignees m))
      then Some (mkBadge Unassigned None None)
      else
        let assignees :=
          match Metadata.assignees m with Some l => l | None => [] end in
        let me := hasMe currentUser assignees in
        let assigneesCount :=
          if me then List.length assignees - 1 else List.length assignees in
        let assigneeUsers :=
          filter (fun user => Js.includes assignees (AssignedUsers.id user)) users in
        let title := String.concat ", " (map AssignedUsers.displayName assigneeUsers) in
        let label :=
          if me && (assigneesCount =? 0)%nat then AssignedToMe
          else if me && (0 <? assigneesCount)%nat then MeAndOthers assigneesCount
          else CountAssigned assigneesCount in
        Some (mkBadge label (Some title) (Some "primary"))
  end.

End AssigneesBadge.

(** ** The transitions offered by the calendar and the quick-edit modal
    (CalendarView: getAvailableTransitionsForEvent and
    getAvailableTransitionsForEventWithPermissions; QuickEditModal:
    getAvailableTransitions).  [states] is [DEFAULT_CONFIG.states]; [None]
    stands for the TypeError raised when the current state has no
    [transitions] array. *)

Module Transitions.

(** [ids.map(id => states.find(state => state.id === id)).filter(Boolean)] *)
Definition lookup (states : list State.t) (ids : list string) : list State.t :=
  flat_map
    (fun found => match found with Some s => [s] | None => [] end)
    (map (fun transitionId => find (fun state => State.id state =? transitionId) states) ids).

Definition getAvailableTransitionsForEvent (states : list State.t)
  (workflowState : string) : option (list State.t) :=
  match find (fun state => State.id state =? workflowState) states with
  | None => Some []
  | Some currentState =>
      match State.transitions currentState with
      | None => None
      | Some ids => Some (lookup states ids)
      end
  end.

Definition getAvailableTransitionsForEventWithPermissions (states : list State.t)
  (currentUser : option User.t) (workflowState : string)
  (assignees : option (list string)) : option (list State.t) :=
  match getAvailableTransitionsForEvent states workflowState with
  | None => None
  | Some availableTransitions =>
      Some (filter
              (fun transition =>
                 Permissions.canUserTransitionToState currentUser (Some transition) assignees)
              availableTransitions)
  end.

(** QuickEditModal's copy, written in one function. *)
Definition getAvailableTransitions (states : list State.t)
  (currentUser : option User.t) (workflowState : string)
  (assignees : option (list string)) : option (list State.t) :=
  match find (fun state => State.id state =? workflowState) states with
  | None => Some []
  | Some currentState =>
      match State.transitions currentState with
      | None => None
      | Some ids =>
          let allTransitions := lookup states ids in
          Some (filter
                  (fun transition =>
                     Permissions.canUserTransitionToState currentUser (Some transition)
                       assignees)
                  allTransitions)
      end
  end.

End Transitions.

(** ** Calendar events (src/components/CalendarView.tsx: events,
    availableWorkflowStates) *)

Module Calendar.

Record PublishSchedule := mkSchedule
  { scheduledDate : option string
  ; publishStatus : option string
  ; dependencies : option (list string) }.

(** The projected [document] of a query row. *)
Record Referenced := mkReferenced
  { ref_id : string
  ; ref_type : option string
  ; ref_title : option string }.

(** A row of the calendar query. *)
Record ScheduledDoc := mkRow
  { _id : string
  ; documentId : option string
  ; state : option string
  ; assignees : option (list string)
  ; publishSchedule : option PublishSchedule
  ; document : option Referenced }.

(** [date] keeps the scheduled date as the string given to [new Date]. *)
Record CalendarEvent := mkEvent
  { id : string
  ; title : string
  ; date : string
  ; status : string
  ; event_documentId : string
  ; documentType : string
  ; event_assignees : list string
  ; workflowState : string
  ; event_dependencies : list string }.

(** [doc.publishSchedule?.scheduledDate] *)
Definition scheduledDateOf (doc : ScheduledDoc) : option string :=
  match publishSchedule doc with
  | Some s => scheduledDate s
  | None => None
  end.

(** The callback of the filter. *)
Definition shown (selectedWorkflowStates : list string) (doc : ScheduledDoc) : bool :=
  let hasSchedule := Js.truthyOpt (scheduledDateOf doc) in
  let matchesWorkflowState :=
    negb (Js.nonEmpty selectedWorkflowStates)
    || (Js.truthyOpt (state doc)
        && match state doc with
           | Some s => Js.includes selectedWorkflowStates s
           | None => false
           end) in
  hasSchedule && matchesWorkflowState.

(** The callback of the map. *)
Definition toEvent (doc : ScheduledDoc) : CalendarEvent :=
  let docType := match document doc with Some d => ref_type d | None => None end in
  let docTitle := match document doc with Some d => ref_title d | None => None end in
  mkEvent
    (Js.orElse (documentId doc) (_id doc))
    (Js.orElse docTitle (Js.orElse docType "Document"))
    (match scheduledDateOf doc with Some d => d | None => EmptyString end)
    (Js.orElse (match publishSchedule doc with
                | Some s => publishStatus s
                | None => None
                end) "scheduled")
    (Js.orElse (documentId doc) (_id doc))
    (Js.orElse docType "unknown")
    (match assignees doc with Some l => l | None => [] end)
    (Js.orElse (state doc) "draft")
    (match publishSchedule doc with
     | Some s => match dependencies s with Some l => l | None => [] end
     | None => []
     end).

(** [scheduledDocuments] is [None] when it is not an array. *)
Definition events (scheduledDocuments : option (list ScheduledDoc))
  (selectedWorkflowStates : list string) : list CalendarEvent :=
  match scheduledDocuments with
  | None => []
  | Some docs => map toEvent (filter (shown selectedWorkflowStates) docs)
  end.

(** [states.add(x)] on a set listed in insertion order. *)
Definition setAdd (s : list string) (x : string) : list string :=
  if Js.includes s x then s else s ++ [x].

(** [Array.from(states).sort()]: the default sort orders strings by code
    unit. *)
Definition availableWorkflowStates (scheduledDocuments : option (list ScheduledDoc))
  : list string :=
  let states :=
    match scheduledDocuments with
    | None => []
    | Some docs =>
        fold_left
          (fun states doc =>
             match state doc with
             | Some s => if Js.truthy s then setAdd states s else states
             | None => states
             end)
          docs []
    end in
  Js.sort String.compare states.

End Calendar.

(** ** The card of a document (unnamed/part_002, DocumentCard) *)

Module Card.

Inductive Tone :=
| ToneDefault
| ToneTransparent
| TonePositive
| ToneCaution
| ToneCritical.

(** A validation marker, as far as the card reads it. *)
Record Marker := mkMarker { level : string }.

(** [validation.some((v) => v.level === 'error')] *)
Definition someError (validation : list Marker) : bool :=
  existsb (fun v => level v =? "error") validation.

(** [requireValidation] is [state?.requireValidation], read as a condition. *)
Definition cardTone (isDarkMode userRoleCanDrop : bool) (documentId : option string)
  (isPatching isDragging requireValidation isValidating : bool)
  (validation : list Marker) : Tone :=
  let defaultCardTone := if isDarkMode then ToneTransparent else ToneDefault in
  if negb userRoleCanDrop then (if isDarkMode then ToneDefault else ToneTransparent)
  else if negb (Js.truthyOpt documentId) then defaultCardTone
  else
    let tone1 :=
      if isPatching then (if isDarkMode then ToneDefault else ToneTransparent)
      else defaultCardTone in
    let tone2 := if isDragging then TonePositive else tone1 in
    if requireValidation && negb isValidating && Js.nonEmpty validation
    then (if someError validation then ToneCritical else ToneCaution)
    else tone2.

(** The effect that reports the validation status: the action passed to
    [toggleInvalidDocumentId]. *)
Definition reportValidation (isValidating : bool) (validation : list Marker)
  : Selection.InvalidAction :=
  if negb isValidating && Js.nonEmpty validation
  then (if someError validation then Selection.ADD else Selection.REMOVE)
  else Selection.REMOVE.

Definition hasError (isValidating : bool) (validation : list Marker) : bool :=
  if isValidating then false else someError validation.

(** [states[states.length - 1].id === item._metadata?.state]; [None] stands
    for the TypeError raised on an empty list of states. *)
Definition isLastState (states : list State.t) (item : Doc.t) : option bool :=
  match Js.lastOpt states with
  | None => None
  | Some s =>
      Some (match Doc._metadata item with
            | Some m => State.id s =? Metadata.state m
            | None => false
            end)
  end.

(** Whether a CompleteButton is rendered, in the action bar
    ([isLastState && states.length <= 3]) or below it
    ([isLastState && states.length > 3]). *)
Definition showsCompleteButton (states : list State.t) (item : Doc.t) : option bool :=
  match isLastState states item with
  | None => None
  | Some last =>
      Some ((last && (List.length states <=? 3)%nat)
            || (last && (3 <? List.length states)%nat))
  end.

End Card.

(** ** The hooks the plugin installs (unnamed/part_000: document.actions,
    document.badges) *)

Module PluginHooks.

Inductive Action (A : Type) :=
| BeginWorkflow
| AssignWorkflow
| ScheduleWorkflow
| UpdateWorkflow (state : State.t)
| CompleteWorkflow
| ExistingAction (a : A).
Arguments BeginWorkflow {A}.
Arguments AssignWorkflow {A}.
Arguments ScheduleWorkflow {A}.
Arguments UpdateWorkflow {A} state.
Arguments CompleteWorkflow {A}.
Arguments ExistingAction {A} a.

Inductive BadgeHook (B : Type) :=
| StateBadge (documentId : string)
| AssigneesBadge (documentId : string)
| ScheduleBadge (documentId : string)
| ExistingBadge (b : B).
Arguments StateBadge {B} documentId.
Arguments AssigneesBadge {B} documentId.
Arguments ScheduleBadge {B} documentId.
Arguments ExistingBadge {B} b.

Definition actions {A} (p : Plugin.PluginOptions) (prev : list A) (schemaType : string)
  : list (Action A) :=
  if negb (Js.includes (Plugin.plugin_schemaTypes p) schemaType)
  then map ExistingAction prev
  else [BeginWorkflow; AssignWorkflow; ScheduleWorkflow]
       ++ map UpdateWorkflow (Plugin.plugin_states p)
       ++ [CompleteWorkflow]
       ++ map ExistingAction prev.

Definition badges {B} (p : Plugin.PluginOptions) (prev : list B) (schemaType : string)
  (documentId : option string) : list (BadgeHook B) :=
  if negb (Js.includes (Plugin.plugin_schemaTypes p) schemaType)
  then map ExistingBadge prev
  else
    match documentId with
    | Some d =>
        if Js.truthy d
        then [StateBadge d; AssigneesBadge d; ScheduleBadge d] ++ map ExistingBadge prev
        else map ExistingBadge prev
    | None => map ExistingBadge prev
    end.

End PluginHooks.

(** ** More samples *)

Module Samples.

Definition alice : AssignedUsers.ProjectUser := AssignedUsers.mkUser "u1" "Alice".

(** A scheduled row without a workflow state. *)
Definition unfiled : Calendar.ScheduledDoc :=
  Calendar.mkRow "workflow-metadata.d1" (Some "d1") None None
    (Some (Calendar.mkSchedule (Some "2026-01-05T09:00:00.000Z") None None)) None.

(** Two states, the first leading to the second, which only administrators
    may enter. *)
Definition inReview : State.t :=
  State.mk "inReview" "In review" None (Some ["approved"; "archived"]) false false.

Definition approved : State.t :=
  State.mk "approved" "Approved" (Some ["administrator"]) (Some []) false false.

Definition administrator : User.t :=
  User.mk "u1" (Some [Role.mk "administrator"]).

End Samples.

(** * Properties *)

(** ** Array helpers *)

Lemma includes_In (xs : list string) (x : string) :
  Js.includes xs x = true <-> In x xs.
Proof.
  unfold Js.includes. rewrite existsb_exists. split.
  - intros [y [Hy Heq]]. apply String.eqb_eq in Heq. now subst.
  - intros H. exists x. split; [assumption | apply String.eqb_refl].
Qed.

Lemma includes_not_In (xs : list string) (x : string) :
  Js.includes xs x = false <-> ~ In x xs.
Proof.
  rewrite <- includes_In. now destruct (Js.includes xs x).
Qed.

Lemma In_insertBy {A} (cmp : A -> A -> comparison) (x y : A) (xs : list A) :
  In y (Js.insertBy cmp x xs) <-> y = x \/ In y xs.
Proof.
  induction xs as [| z r IH]; simpl.
  - intuition.
  - destruct (cmp x z); simpl; try rewrite IH; intuition.
Qed.

Lemma In_sort {A} (cmp : A -> A -> comparison) (y : A) (xs : list A) :
  In y (Js.sort cmp xs) <-> In y xs.
Proof.
  unfold Js.sort. induction xs as [| x r IH]; simpl.
  - tauto.
  - rewrite In_insertBy, IH. intuition.
Qed.

Lemma filter_drop_absent (x : string) (xs : list string) :
  ~ In x xs -> filter (fun id => negb (id =? x)) xs = xs.
Proof.
  induction xs as [| y r IH]; simpl; intros H.
  - reflexivity.
  - destruct (String.eqb_spec y x) as [-> | Hne]; simpl.
    + exfalso. apply H. now left.
    + f_equal. apply IH. intros Hin. apply H. now right.
Qed.

Lemma filter_drop_gone (x : string) (xs : list string) :
  ~ In x (filter (fun id => negb (id =? x)) xs).
Proof.
  rewrite filter_In. intros [_ H]. now rewrite String.eqb_refl in H.
Qed.

Lemma filter_accepting {A} (f : A -> bool) (xs : list A) :
  (forall x, f x = true) -> filter f xs = xs.
Proof.
  intros H. induction xs as [| x r IH]; simpl; [reflexivity |].
  rewrite H. now f_equal.
Qed.

Lemma findIndexFrom_range {A} (p : A -> bool) (xs : list A) (i : Z) :
  (Js.findIndexFrom p xs i = -1 \/ i <= Js.findIndexFrom p xs i)%Z.
Proof.
  revert i. induction xs as [| x r IH]; simpl; intros i.
  - now left.
  - destruct (p x).
    + right. lia.
    + destruct (IH (i + 1)%Z) as [H | H]; [now left | right; lia].
Qed.

(** [findIndex] answers 0 exactly when the head of the array satisfies the
    test. *)
Lemma findIndex_zero {A} (p : A -> bool) (xs : list A) :
  Js.findIndex p xs = 0%Z <-> exists x r, xs = x :: r /\ p x = true.
Proof.
  unfold Js.findIndex. destruct xs as [| x r]; simpl.
  - split; [discriminate | intros (? & ? & ? & _); discriminate].
  - destruct (p x) eqn:Hp.
    + split; [intros _; now exists x, r | reflexivity].
    + split.
      * intros H. destruct (findIndexFrom_range p r 1) as [H' | H']; simpl in *; lia.
      * intros (y & r' & Heq & Hy). injection Heq as -> ->. congruence.
Qed.

(** ** Dependency manager *)

Module DependencyFacts.
Import DependencyManager.

(** The guard's second test repeats the first one. *)
Lemma hasCircularDependency_is_includes (p : Props) (id : string) :
  hasCircularDependency p id = Js.includes (currentDependencies p) id.
Proof. reflexivity. Qed.

Lemma handleAddDependency_cases (p : Props) (c : string) :
  handleAddDependency p c =
  if Js.includes (currentDependencies p) c then RejectedDuplicate
  else Added (currentDependencies p ++ [c]).
Proof.
  unfold handleAddDependency, hasCircularDependency.
  now destruct (Js.includes (currentDependencies p) c).
Qed.

(** C3 (as stated, refuted): with an empty list, a document offered as its
    own dependency is not rejected as circular; it is appended. *)
Lemma addDependency_self_is_added :
  addDependency "doc" "doc" [] = Added ["doc"] /\
  addDependency "doc" "doc" [] <> RejectedCircular.
Proof. split; [reflexivity | discriminate]. Qed.

(** C3 (amended): a candidate already in the list is rejected as a
    duplicate; any other candidate, the document's own id included, is
    appended to the list.  In particular [addDependency doc X [X]] is a
    duplicate and [addDependency doc Y []] yields [[Y]]. *)
Theorem addDependency_outcome (doc candidate : string) (deps : list string) :
  (In candidate deps -> addDependency doc candidate deps = RejectedDuplicate) /\
  (~ In candidate deps -> addDependency doc candidate deps = Added (deps ++ [candidate])) /\
  addDependency doc candidate [candidate] = RejectedDuplicate /\
  addDependency doc candidate [] = Added [candidate].
Proof.
  unfold addDependency. rewrite !handleAddDependency_cases. simpl.
  repeat split.
  - intros H. apply includes_In in H. now rewrite H.
  - intros H. apply includes_not_In in H. now rewrite H.
  - unfold Js.includes. simpl. now rewrite String.eqb_refl.
Qed.

Lemma addDependency_outcome_witness :
  addDependency "d" "x" ["a"; "x"] = RejectedDuplicate /\
  addDependency "d" "y" ["a"; "x"] = Added ["a"; "x"; "y"].
Proof.
  split.
  - destruct (addDependency_outcome "d" "x" ["a"; "x"]) as [H _].
    apply H. simpl. auto.
  - destruct (addDependency_outcome "d" "y" ["a"; "x"]) as [_ [H _]].
    apply H. simpl. intros [E | [E | []]]; discriminate.
Defined.

(** C8: adding an absent candidate and removing it again gives back the
    original list; removal leaves no occurrence of its target and changes
    nothing when the target is absent. *)
Theorem remove_after_add (d x : string) (deps : list string) :
  (~ In x deps ->
   exists l, addDependency d x deps = Added l /\ removeDependency d x l = deps) /\
  ~ In x (removeDependency d x deps) /\
  (~ In x deps -> removeDependency d x deps = deps).
Proof.
  unfold addDependency, removeDependency, handleRemoveDependency. simpl.
  repeat split.
  - intros H. exists (deps ++ [x]). split.
    + rewrite handleAddDependency_cases. simpl.
      apply includes_not_In in H. now rewrite H.
    + rewrite filter_app. simpl. rewrite String.eqb_refl. simpl.
      rewrite app_nil_r. now apply filter_drop_absent.
  - apply filter_drop_gone.
  - apply filter_drop_absent.
Qed.

Lemma remove_after_add_witness :
  exists l, addDependency "d" "x" ["a"; "b"] = Added l /\
            removeDependency "d" "x" l = ["a"; "b"].
Proof.
  destruct (remove_after_add "d" "x" ["a"; "b"]) as [H _].
  apply H. simpl. intros [E | [E | []]]; discriminate.
Defined.

(** C10: the circular test holds exactly when the candidate is already in
    the list, so the duplicate test always answers first and no call ends in
    the circular rejection. *)
Theorem circular_rejection_unreachable (p : Props) (candidate : string) :
  (hasCircularDependency p candidate = true <-> In candidate (currentDependencies p)) /\
  (hasCircularDependency p candidate = true ->
   handleAddDependency p candidate = RejectedDuplicate) /\
  handleAddDependency p candidate <> RejectedCircular.
Proof.
  repeat split.
  - intros H. now apply includes_In.
  - intros H. now apply includes_In.
  - intros H. rewrite handleAddDependency_cases.
    rewrite hasCircularDependency_is_includes in H. now rewrite H.
  - rewrite handleAddDependency_cases.
    destruct (Js.includes (currentDependencies p) candidate); discriminate.
Qed.

Lemma circular_rejection_unreachable_witness :
  handleAddDependency (mkProps "d" ["a"; "b"]) "a" = RejectedDuplicate.
Proof.
  destruct (circular_rejection_unreachable (mkProps "d" ["a"; "b"]) "a") as [_ [H _]].
  apply H. reflexivity.
Defined.

End DependencyFacts.

(** ** Quick-transition permission check *)

Module PermissionFacts.
Import Permissions.

(** What the role half computes: a target whose role list is present but
    empty admits nobody; a user without roles passes any other target;
    otherwise one of the user's roles must be listed. *)
Lemma userRoleCanUpdateState_cases (u : User.t) (s : State.t) :
  userRoleCanUpdateState u s =
  match State.roles s with
  | None => true
  | Some [] => false
  | Some listed =>
      match User.roles u with
      | None | Some [] => true
      | Some ur => someRoleListed ur listed
      end
  end.
Proof.
  unfold userRoleCanUpdateState.
  destruct (User.roles u) as [[| r ur] |], (State.roles s) as [[| x sr] |]; reflexivity.
Qed.

(** On a user who has at least one role and a target whose role list is not
    a present-but-empty array, the function computes the contract. *)
Lemma canUserTransitionToState_agrees (u : User.t) (s : State.t)
  (assignees : option (list string)) :
  Js.hasLength (User.roles u) = true ->
  State.roles s <> Some [] ->
  canUserTransitionToState (Some u) (Some s) assignees =
  canUserTransitionToState_spec u s assignees.
Proof.
  intros Hu Hs. unfold canUserTransitionToState, canUserTransitionToState_spec.
  rewrite userRoleCanUpdateState_cases. unfold holdsListedRole.
  f_equal.
  - destruct (State.roles s) as [[| x sr] |]; try reflexivity; [congruence |].
    destruct (User.roles u) as [[| r ur] |]; try discriminate. reflexivity.
  - unfold userAssignmentCanUpdateState.
    destruct (State.requireAssignment s); simpl; [| reflexivity].
    destruct assignees as [[| a l] |]; reflexivity.
Qed.

(** C2: the function departs from the contract on two inputs.  A user who
    holds no role is let through to a target restricted to administrators,
    and a user is blocked from a target whose role list is empty. *)
Theorem canUserTransitionToState_departs :
  let adminOnly := State.mk "approved" "Approved" (Some ["administrator"]) None false false in
  let open := State.mk "draft" "Draft" (Some []) None false false in
  let nobody := User.mk "u1" (Some []) in
  let editor := User.mk "u2" (Some [Role.mk "editor"]) in
  (canUserTransitionToState (Some nobody) (Some adminOnly) (Some []) = true /\
   canUserTransitionToState_spec nobody adminOnly (Some []) = false) /\
  (canUserTransitionToState (Some editor) (Some open) (Some []) = false /\
   canUserTransitionToState_spec editor open (Some []) = true).
Proof. repeat split. Qed.

End PermissionFacts.

(** ** Plugin construction *)

Module PluginFacts.
Import Plugin.

(** C9 (as stated, refuted): a configuration that names its schema types and
    omits the states is built on the default states; nothing is thrown. *)
Lemma workflowManager_missing_states_builds :
  states (mkConfig (Value ["post"]) Absent) = Absent /\
  workflowManager README_DEFAULT_CONFIG (Some (mkConfig (Value ["post"]) Absent)) =
  Built (mkPlugin "sanity-plugin-workflow-manager" ["post"]
           (arrayOf (states README_DEFAULT_CONFIG))).
Proof. split; reflexivity. Qed.

(** C9 (amended): construction throws exactly when, each key the
    configuration omits being taken from [DEFAULT_CONFIG], the states list is
    undefined or empty or the schemaTypes list is undefined or empty (the
    states being examined first).  With both lists configured and non-empty
    it succeeds; with the states omitted it succeeds on the default states
    when these are non-empty; called without a configuration it behaves as
    on [DEFAULT_CONFIG] itself. *)
Theorem workflowManager_throws_iff (D c : WorkflowConfig) :
  ((exists e, workflowManager D (Some c) = Throws e) <->
   hasLength (spread (states D) (states c)) = false \/
   hasLength (spread (schemaTypes D) (schemaTypes c)) = false) /\
  (hasLength (spread (states D) (states c)) = false ->
   workflowManager D (Some c) = Throws MissingStates) /\
  (forall ts ss, ts <> [] -> ss <> [] ->
   workflowManager D (Some (mkConfig (Value ts) (Value ss))) =
   Built (mkPlugin "sanity-plugin-workflow-manager" ts ss)) /\
  (forall ts ss, ts <> [] -> states D = Value ss -> ss <> [] ->
   workflowManager D (Some (mkConfig (Value ts) Absent)) =
   Built (mkPlugin "sanity-plugin-workflow-manager" ts ss)) /\
  workflowManager D None = workflowManager D (Some D).
Proof.
  unfold workflowManager. repeat split.
  - intros [e He].
    destruct (hasLength (spread (states D) (states c))); [| now left].
    destruct (hasLength (spread (schemaTypes D) (schemaTypes c))); [| now right].
    discriminate.
  - intros [H | H].
    + rewrite H. simpl. now exists MissingStates.
    + rewrite H. destruct (hasLength (spread (states D) (states c))); simpl; eauto.
  - intros H. now rewrite H.
  - intros ts ss Hts Hss. simpl.
    destruct ts; [congruence |]. destruct ss; [congruence |]. reflexivity.
  - intros ts ss Hts HD Hss. simpl. rewrite HD.
    destruct ts; [congruence |]. destruct ss; [congruence |]. reflexivity.
Qed.

Lemma workflowManager_throws_iff_witness :
  workflowManager README_DEFAULT_CONFIG (Some (mkConfig (Value ["post"]) (Value []))) =
  Throws MissingStates /\
  workflowManager README_DEFAULT_CONFIG
    (Some (mkConfig (Value ["post"]) (Value [State.mk "draft" "Draft" None None false false]))) =
  Built (mkPlugin "sanity-plugin-workflow-manager" ["post"]
           [State.mk "draft" "Draft" None None false false]).
Proof.
  split.
  - destruct (workflowManager_throws_iff README_DEFAULT_CONFIG
                (mkConfig (Value ["post"]) (Value []))) as [_ [H _]].
    apply H. reflexivity.
  - destruct (workflowManager_throws_iff README_DEFAULT_CONFIG
                (mkConfig (Value ["post"]) (Value []))) as [_ [_ [H _]]].
    apply H; discriminate.
Defined.

End PluginFacts.

(** ** List filter *)

Module FilterFacts.
Import Filter.

Lemma byUser_no_selection (item : Doc.t) : byUser [] item = true.
Proof. reflexivity. Qed.

Lemma byUser_needs_assignees (selectedUsers : list string) (item : Doc.t) :
  selectedUsers <> [] ->
  byUser selectedUsers item = true ->
  Js.hasLength (Doc.assignees item) = true.
Proof.
  intros Hsel. unfold byUser.
  destruct selectedUsers as [| u r]; [congruence |]. simpl.
  now destruct (Js.hasLength (Doc.assignees item)).
Qed.

Lemma In_filterItemsAndSort (items : option (list Doc.t)) (stateId : string)
  (selectedUsers : list string) (types : option (list string)) (item : Doc.t) :
  In item (filterItemsAndSort items stateId selectedUsers types) ->
  byUser selectedUsers item = true.
Proof.
  unfold filterItemsAndSort. destruct items as [[| d l] |]; try (intros []).
  rewrite In_sort. rewrite !filter_In. tauto.
Qed.

(** C7: when some user is selected, no item without assignees is in the
    result, whatever the other rules say of it; when no user is selected, the
    user rule accepts every item and the result is the one of the remaining
    rules alone. *)
Theorem user_filter_hides_unassigned (items : list Doc.t) (stateId : string)
  (selectedUsers : list string) (types : option (list string)) :
  (selectedUsers <> [] ->
   forall item, Js.hasLength (Doc.assignees item) = false ->
   ~ In item (filterItemsAndSort (Some items) stateId selectedUsers types)) /\
  (forall item, byUser [] item = true) /\
  filterItemsAndSort (Some items) stateId [] types =
  Js.sort byRank
    (filter (byType types)
      (filter (Doc.inState stateId)
        (filter (fun item => Js.truthyOpt (Doc._id item)) items))).
Proof.
  repeat split.
  - intros Hsel item Hnone Hin.
    apply In_filterItemsAndSort in Hin.
    apply (byUser_needs_assignees _ _ Hsel) in Hin. congruence.
  - unfold filterItemsAndSort. destruct items as [| d l]; [reflexivity |].
    f_equal. f_equal. apply filter_accepting. intros x. apply byUser_no_selection.
Qed.

Lemma user_filter_hides_unassigned_witness :
  let d := Doc.mk (Some "post-1") "post"
             (Some (Metadata.mk "post-1" "draft" (Some []) (Some "0|hzzzzz:"))) in
  ~ In d (filterItemsAndSort (Some [d]) "draft" ["u1"] None) /\
  In d (filterItemsAndSort (Some [d]) "draft" [] None).
Proof.
  intros d. split.
  - destruct (user_filter_hides_unassigned [d] "draft" ["u1"] None) as [H _].
    apply H; [discriminate | reflexivity].
  - simpl. left. reflexivity.
Defined.

End FilterFacts.

(** ** Drag start: the states a card may not be dropped on *)

Module DragStartFacts.
Import Board Examples.

Lemma handleDragStart_found (data : list Doc.t) (states : list State.t)
  (user : option User.t) (start : DragStart) (st : DragState)
  (document : Doc.t) (state : State.t) :
  find (Doc.hasDocumentId (start_draggableId start)) data = Some document ->
  find (fun s => State.id s =? droppableId (start_source start)) states = Some state ->
  undroppableStates (handleDragStart data states user start st) =
  undroppableExceptSelf states user document state (droppableId (start_source start)).
Proof.
  intros Hd Hs. unfold handleDragStart. now rewrite Hd, Hs.
Qed.

Lemma In_undroppableExceptSelf (states : list State.t) (user : option User.t)
  (document : Doc.t) (state : State.t) (cur id : string) :
  In id (undroppableExceptSelf states user document state cur) <->
  (In id (assignmentExclusions states user document) \/
   In id (statesThatCannotBeTransitionedToIds states state)) /\ id <> cur.
Proof.
  unfold undroppableExceptSelf. rewrite filter_In, in_app_iff, negb_true_iff.
  now rewrite String.eqb_neq.
Qed.

Lemma userIsAssignedToDocument_true (u : User.t) (document : Doc.t) :
  userIsAssignedToDocument (Some u) document = true <->
  User.id u <> EmptyString /\ In (User.id u) (documentAssignees document).
Proof.
  unfold userIsAssignedToDocument, Js.truthy.
  destruct (String.eqb_spec (User.id u) EmptyString) as [E | E]; simpl.
  - split; [discriminate | tauto].
  - rewrite includes_In. tauto.
Qed.

Lemma In_statesThatRequireAssignmentIds (states : list State.t) (s : State.t) :
  In s states -> State.requireAssignment s = true ->
  In (State.id s) (statesThatRequireAssignmentIds states).
Proof.
  intros Hin Hreq. unfold statesThatRequireAssignmentIds.
  apply in_map. apply filter_In. now split.
Qed.

Lemma assignmentExclusions_unassigned (states : list State.t) (user : option User.t)
  (document : Doc.t) :
  userIsAssignedToDocument user document = false ->
  assignmentExclusions states user document = statesThatRequireAssignmentIds states.
Proof.
  intros H. unfold assignmentExclusions. rewrite H. simpl.
  now destruct (statesThatRequireAssignmentIds states).
Qed.

Lemma assignmentExclusions_assigned (states : list State.t) (user : option User.t)
  (document : Doc.t) :
  userIsAssignedToDocument user document = true ->
  assignmentExclusions states user document = [].
Proof.
  intros H. unfold assignmentExclusions. rewrite H. simpl.
  now destruct (Js.nonEmpty (statesThatRequireAssignmentIds states)).
Qed.

(** C5: whenever the dragged document and its source state are found, the
    set the handler stores does not contain the source state. *)
Theorem source_state_stays_droppable (data : list Doc.t) (states : list State.t)
  (user : option User.t) (start : DragStart) (st : DragState)
  (document : Doc.t) (state : State.t) :
  find (Doc.hasDocumentId (start_draggableId start)) data = Some document ->
  find (fun s => State.id s =? droppableId (start_source start)) states = Some state ->
  ~ In (droppableId (start_source start))
       (undroppableStates (handleDragStart data states user start st)).
Proof.
  intros Hd Hs. rewrite (handleDragStart_found _ _ _ _ _ _ _ Hd Hs).
  rewrite In_undroppableExceptSelf. intros [_ H]. now apply H.
Qed.

Lemma source_state_stays_droppable_witness :
  ~ In "review"
       (undroppableStates
          (handleDragStart [card "d1" "review" []] [draft; review]
             (Some (User.mk "u1" None))
             (mkDragStart "d1" (mkLoc "review" 0)) idle)).
Proof.
  apply (source_state_stays_droppable [card "d1" "review" []] [draft; review]
           (Some (User.mk "u1" None)) (mkDragStart "d1" (mkLoc "review" 0)) idle
           (card "d1" "review" []) review); reflexivity.
Defined.

(** C6 (as stated, refuted): the review column requires assignment and the
    user is not among the assignees of the dragged card, yet the column is
    not in the computed set, because the card is dragged from it. *)
Lemma required_state_not_excluded_when_source :
  let states := [draft; review] in
  let document := card "d1" "review" [] in
  let user := User.mk "u1" None in
  In review states /\
  State.requireAssignment review = true /\
  ~ In (User.id user) (documentAssignees document) /\
  ~ In (State.id review)
       (undroppableStates
          (handleDragStart [document] states (Some user)
             (mkDragStart "d1" (mkLoc "review" 0)) idle)).
Proof.
  simpl. repeat split; try tauto.
Qed.

(** C6 (amended): take a configured state that requires assignment and is
    not the source state of the drag.  If the current user's id is not among
    the assignees of the dragged document, the state is in the computed set.
    If the user's id, a non-empty string, is among them, the assignment rule
    excludes nothing, and the state is in the computed set only when the
    transition rule puts it there. *)
Theorem assignment_rule (data : list Doc.t) (states : list State.t)
  (user : option User.t) (start : DragStart) (st : DragState)
  (document : Doc.t) (state s : State.t) :
  find (Doc.hasDocumentId (start_draggableId start)) data = Some document ->
  find (fun x => State.id x =? droppableId (start_source start)) states = Some state ->
  In s states ->
  State.requireAssignment s = true ->
  State.id s <> droppableId (start_source start) ->
  ((forall u, user = Some u -> ~ In (User.id u) (documentAssignees document)) ->
   In (State.id s) (undroppableStates (handleDragStart data states user start st))) /\
  (forall u, user = Some u -> User.id u <> EmptyString ->
   In (User.id u) (documentAssignees document) ->
   assignmentExclusions states user document = [] /\
   (In (State.id s) (undroppableStates (handleDragStart data states user start st)) <->
    In (State.id s) (statesThatCannotBeTransitionedToIds states state))).
Proof.
  intros Hd Hs Hin Hreq Hne.
  rewrite (handleDragStart_found _ _ _ _ _ _ _ Hd Hs). split.
  - intros Habsent. apply In_undroppableExceptSelf. split; [| assumption]. left.
    rewrite assignmentExclusions_unassigned.
    + now apply In_statesThatRequireAssignmentIds.
    + destruct user as [u |]; [| reflexivity].
      destruct (userIsAssignedToDocument (Some u) document) eqn:E; [| reflexivity].
      apply userIsAssignedToDocument_true in E. destruct E as [_ E].
      exfalso. now apply (Habsent u).
  - intros u -> Hid Hassigned.
    assert (E : assignmentExclusions states (Some u) document = []).
    { apply assignmentExclusions_assigned. now apply userIsAssignedToDocument_true. }
    split; [exact E |]. rewrite In_undroppableExceptSelf, E. split.
    + intros [[[] | H] _]. exact H.
    + intros H. split; [now right | exact Hne].
Qed.

Lemma assignment_rule_witness :
  let start := mkDragStart "d1" (mkLoc "draft" 0) in
  In "review"
     (undroppableStates
        (handleDragStart [card "d1" "draft" []] [draft; review]
           (Some (User.mk "u1" None)) start idle)) /\
  (In "review"
      (undroppableStates
         (handleDragStart [card "d1" "draft" ["u1"]] [draft; review]
            (Some (User.mk "u1" None)) start idle)) <->
   In "review" (statesThatCannotBeTransitionedToIds [draft; review] draft)).
Proof.
  intros start.
  assert (Hin : In review [draft; review]) by (simpl; auto).
  assert (Hne : State.id review <> droppableId (start_source start)) by discriminate.
  split.
  - destruct (assignment_rule [card "d1" "draft" []] [draft; review]
                (Some (User.mk "u1" None)) start idle
                (card "d1" "draft" []) draft review
                eq_refl eq_refl Hin eq_refl Hne) as [H _].
    apply H. intros u Hu. injection Hu as <-. simpl. tauto.
  - destruct (assignment_rule [card "d1" "draft" ["u1"]] [draft; review]
                (Some (User.mk "u1" None)) start idle
                (card "d1" "draft" ["u1"]) draft review
                eq_refl eq_refl Hin eq_refl Hne) as [_ H].
    apply (H (User.mk "u1" None)); [reflexivity | discriminate | simpl; auto].
Defined.

End DragStartFacts.

(** ** The binary key space meets the contract of the rank library *)

Module BinaryKeysFacts.
Import BinaryKeys.

Lemma glyph_compare (x y : nat) :
  x <= 2 -> y <= 2 -> Ascii.compare (glyph x) (glyph y) = Nat.compare x y.
Proof.
  intros Hx Hy.
  destruct x as [| [| [| x]]]; try lia;
    destruct y as [| [| [| y]]]; try lia; reflexivity.
Qed.

(** On digits 0 to 2 the string order is the lexicographic order of the
    digit lists. *)
Lemma compare_render (xs ys : list nat) :
  small xs -> small ys ->
  Js.localeCompare (render xs) (render ys) = lexcmp xs ys.
Proof.
  unfold Js.localeCompare. intros Hx. revert ys.
  induction Hx as [| x xr Hx Hxr IH]; intros ys Hy.
  - destruct Hy; reflexivity.
  - destruct Hy as [| y yr Hy Hyr]; [reflexivity |]. simpl.
    rewrite (glyph_compare x y Hx Hy).
    destruct (Nat.compare x y); [now apply IH | reflexivity | reflexivity].
Qed.

Lemma small_chars (k : key) : small (chars k).
Proof.
  unfold small. destruct k as [| | bs]; simpl.
  - repeat constructor.
  - repeat constructor.
  - apply Forall_app. split; [| repeat constructor].
    apply Forall_map. apply Forall_forall. intros [] _; simpl; lia.
Qed.

Lemma rank_lt_lexcmp (a b : key) :
  rank_lt (toString a) (toString b) <-> lexcmp (chars a) (chars b) = Lt.
Proof.
  unfold rank_lt, toString.
  now rewrite (compare_render _ _ (small_chars a) (small_chars b)).
Qed.

(** A list lies below each of its proper extensions. *)
Lemma lexcmp_extension (xs s : list nat) :
  s <> [] -> lexcmp xs (xs ++ s) = Lt.
Proof.
  intros Hs. induction xs as [| x r IH]; simpl.
  - destruct s; [congruence | reflexivity].
  - now rewrite Nat.compare_refl.
Qed.

Lemma lexcmp_nil_r (xs : list nat) : lexcmp xs [] <> Lt.
Proof. destruct xs; discriminate. Qed.

(** A long enough run of zeros closed by a 1 lies below every list that
    ends in a non-zero digit. *)
Lemma zeros_below (ys : list nat) :
  forall k, List.length ys <= k -> last ys 0 <> 0 ->
  lexcmp (repeat 0 k ++ [1]) ys = Lt.
Proof.
  induction ys as [| y t IH]; intros k Hk Hlast.
  - simpl in Hlast. congruence.
  - destruct k as [| k]; simpl in Hk; [lia |]. simpl.
    destruct y as [| y]; [| reflexivity]. simpl.
    destruct t as [| z t'].
    + simpl in Hlast. congruence.
    + apply IH; [simpl in *; lia | exact Hlast].
Qed.

Lemma mid_below (xs : list nat) :
  forall ys k, lexcmp xs ys = Lt -> List.length ys <= k -> last ys 0 <> 0 ->
  lexcmp (xs ++ repeat 0 k ++ [1]) ys = Lt.
Proof.
  induction xs as [| x r IH]; intros ys k Hlt Hk Hlast.
  - now apply zeros_below.
  - destruct ys as [| y t]; [discriminate |]. simpl in *.
    destruct (Nat.compare x y); [| reflexivity | discriminate].
    destruct t as [| z t'].
    + exfalso. now apply (lexcmp_nil_r r).
    + apply IH; [assumption | simpl in *; lia | exact Hlast].
Qed.

Lemma map_digit_repeat (k : nat) : map digit (repeat false k) = repeat 0 k.
Proof. induction k; simpl; [reflexivity | now f_equal]. Qed.

Lemma chars_mid (lo hi : key) :
  lo <> Max ->
  chars (mid lo hi) = chars lo ++ repeat 0 (S (List.length (chars hi))) ++ [1].
Proof.
  intros Hlo. unfold mid. cbn [chars].
  rewrite map_app, map_digit_repeat, <- app_assoc. f_equal.
  destruct lo as [| | bs]; [reflexivity | congruence |].
  cbn [spelled chars]. now rewrite map_app.
Qed.

Lemma last_chars (k : key) : k <> Min -> last (chars k) 0 <> 0.
Proof.
  destruct k as [| | bs]; intros H; [congruence | discriminate |].
  cbn [chars]. rewrite last_last. discriminate.
Qed.

Lemma below_bounds (a b : key) :
  lexcmp (chars a) (chars b) = Lt -> a <> Max /\ b <> Min.
Proof.
  intros H. split; intros ->.
  - destruct b as [| | bs]; try discriminate.
    destruct bs as [| c bs]; simpl in H; [discriminate |].
    destruct c; discriminate.
  - destruct a as [| | bs]; try discriminate.
    destruct bs as [| c bs]; simpl in H; [discriminate |].
    destruct c; simpl in H; [discriminate |].
    now apply (lexcmp_nil_r (map digit bs ++ [1])).
Qed.

Lemma mid_strictly_between (a b : key) :
  lexcmp (chars a) (chars b) = Lt ->
  lexcmp (chars a) (chars (mid a b)) = Lt /\ lexcmp (chars (mid a b)) (chars b) = Lt.
Proof.
  intros H. destruct (below_bounds a b H) as [Ha Hb].
  rewrite (chars_mid a b Ha). split.
  - apply lexcmp_extension. destruct (repeat 0 (S (List.length (chars b)))); discriminate.
  - apply mid_below; [assumption | lia | now apply last_chars].
Qed.

#[export] Instance laws : LexoRankLaws BinaryKeys.ops.
Proof.
  split.
  - intros a b Hlt. cbn in *. apply rank_lt_lexcmp in Hlt.
    exists (mid a b). unfold between. rewrite Hlt. split; [reflexivity |].
    rewrite !rank_lt_lexcmp. now apply mid_strictly_between.
  - reflexivity.
Qed.

End BinaryKeysFacts.

(** ** Drag end: the rank given to the dropped card *)

Module DragEndFacts.
Import Board Examples.

Lemma rank_lt_irrefl (s : string) : ~ rank_lt s s.
Proof.
  unfold rank_lt, Js.localeCompare. intros H.
  pose proof (String.compare_antisym s s) as E. rewrite H in E. discriminate.
Qed.

Lemma rank_lt_neq (s t : string) : rank_lt s t -> s <> t.
Proof. intros H ->. now apply (rank_lt_irrefl t). Qed.

Lemma truthy_true (s : string) : s <> EmptyString -> Js.truthy s = true.
Proof.
  intros H. unfold Js.truthy. apply negb_true_iff. now apply String.eqb_neq.
Qed.

Lemma nth_error_nonEmpty {A} (xs : list A) (i : nat) (x : A) :
  nth_error xs i = Some x -> Js.nonEmpty xs = true.
Proof. destruct xs; [destruct i; discriminate | reflexivity]. Qed.

Section WithRankLibrary.
Context {L : LexoRankOps}.

(** The handler past its guards. *)
Lemma handleDragEnd_moves (data : list Doc.t) (states : list State.t)
  (result : DropResult) (dest : DraggableLocation) :
  destination result = Some dest ->
  (droppableId dest =? droppableId (source result))
    && (index dest =? index (source result))%nat = false ->
  Js.nonEmpty data = true ->
  handleDragEnd data states result =
  match newOrder (Filter.filterItemsAndSort (Some data) (droppableId dest) [] None)
          (Js.findIndex (fun s => State.id s =? droppableId dest) states)
          (List.length states) (index dest)
          (Js.orElse (bind (hd_error data) Doc.orderRank) "0")
          (Js.orElse (bind (Js.lastOpt data) Doc.orderRank) "0") with
  | Some r => Moved r
  | None => Thrown
  end.
Proof.
  intros Hd Hpos Hdata. unfold handleDragEnd. now rewrite Hd, Hpos, Hdata.
Qed.

(** The allocator on an empty column. *)
Lemma newOrder_empty (dsi : Z) (n i : nat) (gmin gmax : string) :
  newOrder [] dsi n i gmin gmax =
  Some (if (dsi =? 0)%Z then lr_toString lr_min else lr_toString (lr_genNext lr_min)).
Proof. unfold newOrder. simpl. now destruct (dsi =? 0)%Z. Qed.

(** The allocator between two cards that both carry a rank. *)
Lemma newOrder_between (items : list Doc.t) (dsi : Z) (n i : nat) (gmin gmax : string)
  (before after : Doc.t) (sb sa : string) (b a : LexoRank) :
  i <> 0 -> i + 1 <> List.length items ->
  nth_error items (i - 1) = Some before ->
  nth_error items i = Some after ->
  Doc.orderRank before = Some sb -> sb <> EmptyString -> lr_parse sb = Some b ->
  Doc.orderRank after = Some sa -> sa <> EmptyString -> lr_parse sa = Some a ->
  newOrder items dsi n i gmin gmax =
  if lr_toString b =? lr_toString a
  then Some (lr_toString (lr_genNext b))
  else bind (lr_between b a) (fun r => Some (lr_toString r)).
Proof.
  intros Hi Hlen Hb Ha Hsb Hsb' Hpb Hsa Hsa' Hpa. unfold newOrder.
  rewrite (nth_error_nonEmpty _ _ _ Ha). simpl negb. cbv iota.
  apply Nat.eqb_neq in Hi. rewrite Hi.
  apply Nat.eqb_neq in Hlen. rewrite Hlen.
  rewrite Hb, Ha. simpl bind. rewrite Hsb, Hsa. simpl Js.truthyOpt.
  rewrite (truthy_true _ Hsb'), (truthy_true _ Hsa'). simpl bind.
  rewrite Hpb, Hpa. reflexivity.
Qed.

Context {Laws : LexoRankLaws L}.

(** C4: when the destination column holds no card, the dropped card gets the
    minimum rank if the destination is the first configured state, and
    otherwise the rank generated after the minimum, which is not the
    minimum. *)
Theorem empty_column_rank (data : list Doc.t) (states : list State.t)
  (result : DropResult) (dest : DraggableLocation) :
  destination result = Some dest ->
  (droppableId dest =? droppableId (source result))
    && (index dest =? index (source result))%nat = false ->
  data <> [] ->
  Filter.filterItemsAndSort (Some data) (droppableId dest) [] None = [] ->
  ((exists s rest, states = s :: rest /\ State.id s = droppableId dest) ->
   handleDragEnd data states result = Moved (lr_toString lr_min)) /\
  (~ (exists s rest, states = s :: rest /\ State.id s = droppableId dest) ->
   handleDragEnd data states result = Moved (lr_toString (lr_genNext lr_min)) /\
   lr_toString (lr_genNext lr_min) <> lr_toString lr_min).
Proof.
  intros Hd Hpos Hdata Hempty.
  assert (Hne : Js.nonEmpty data = true) by (destruct data; [congruence | reflexivity]).
  rewrite (handleDragEnd_moves _ _ _ _ Hd Hpos Hne), Hempty, newOrder_empty.
  pose proof (findIndex_zero (fun s => State.id s =? droppableId dest) states) as Hz.
  split.
  - intros (s & rest & Hs & Hid).
    assert (E : Js.findIndex (fun s => State.id s =? droppableId dest) states = 0%Z).
    { apply Hz. exists s, rest. split; [assumption | now apply String.eqb_eq]. }
    now rewrite E.
  - intros Hnot. split.
    + destruct (Z.eqb_spec
                  (Js.findIndex (fun s => State.id s =? droppableId dest) states) 0) as [E | E];
        [| reflexivity].
      exfalso. apply Hnot. apply Hz in E.
      destruct E as (s & rest & Hs & Hid). exists s, rest.
      split; [assumption | now apply String.eqb_eq].
    + apply not_eq_sym. apply rank_lt_neq. apply genNext_min_lt.
Qed.

(** C1: when the card is dropped between two cards whose ranks [b] and [a]
    parse, the new rank lies strictly between them if [b] is below [a], and
    is the rank generated after [b] if the two are equal. *)
Theorem between_neighbours_rank (data : list Doc.t) (states : list State.t)
  (result : DropResult) (dest : DraggableLocation)
  (before after : Doc.t) (sb sa : string) (b a : LexoRank) :
  destination result = Some dest ->
  (droppableId dest =? droppableId (source result))
    && (index dest =? index (source result))%nat = false ->
  let items := Filter.filterItemsAndSort (Some data) (droppableId dest) [] None in
  index dest <> 0 ->
  index dest + 1 <> List.length items ->
  nth_error items (index dest - 1) = Some before ->
  nth_error items (index dest) = Some after ->
  Doc.orderRank before = Some sb -> sb <> EmptyString -> lr_parse sb = Some b ->
  Doc.orderRank after = Some sa -> sa <> EmptyString -> lr_parse sa = Some a ->
  (rank_lt (lr_toString b) (lr_toString a) ->
   exists r, handleDragEnd data states result = Moved r /\
             rank_lt (lr_toString b) r /\ rank_lt r (lr_toString a)) /\
  (lr_toString b = lr_toString a ->
   handleDragEnd data states result = Moved (lr_toString (lr_genNext b))).
Proof.
  intros Hd Hpos items Hi Hlen Hb Ha Hsb Hsb' Hpb Hsa Hsa' Hpa.
  assert (Hne : Js.nonEmpty data = true).
  { destruct data; [| reflexivity]. subst items. destruct (index dest); discriminate. }
  rewrite (handleDragEnd_moves _ _ _ _ Hd Hpos Hne).
  fold items.
  rewrite (newOrder_between items _ _ _ _ _ before after sb sa b a) by assumption.
  split.
  - intros Hlt.
    destruct (between_lt b a Hlt) as (r & Hr & Hbr & Hra).
    apply rank_lt_neq in Hlt. apply String.eqb_neq in Hlt. rewrite Hlt, Hr. simpl.
    now exists (lr_toString r).
  - intros Heq. apply String.eqb_eq in Heq. now rewrite Heq.
Qed.

End WithRankLibrary.

Lemma empty_column_rank_witness :
  handleDragEnd (L := BinaryKeys.ops) lonelyBoard [draft; review] (dropOnReview 0) =
  Moved "0001" /\
  "0001" <> "0".
Proof.
  destruct (empty_column_rank (L := BinaryKeys.ops) (Laws := BinaryKeysFacts.laws)
              lonelyBoard [draft; review] (dropOnReview 0) (mkLoc "review" 0)
              eq_refl eq_refl ltac:(discriminate) eq_refl) as [_ H].
  apply H. intros (s & rest & E & Hid). injection E as <- _. discriminate.
Defined.

Lemma between_neighbours_rank_witness :
  (exists r, handleDragEnd (L := BinaryKeys.ops) orderedBoard [draft; review]
               (dropOnReview 1) = Moved r /\
             rank_lt "01" r /\ rank_lt r "011") /\
  handleDragEnd (L := BinaryKeys.ops) tiedBoard [draft; review] (dropOnReview 1) =
  Moved "01001".
Proof.
  split.
  - destruct (between_neighbours_rank (L := BinaryKeys.ops) (Laws := BinaryKeysFacts.laws)
                orderedBoard [draft; review] (dropOnReview 1) (mkLoc "review" 1)
                (ranked "d1" "review" [] "01") (ranked "d2" "review" [] "011")
                "01" "011" (BinaryKeys.Key [false]) (BinaryKeys.Key [false; true])
                eq_refl eq_refl ltac:(discriminate) ltac:(discriminate)
                eq_refl eq_refl eq_refl ltac:(discriminate) eq_refl
                eq_refl ltac:(discriminate) eq_refl) as [H _].
    apply H. reflexivity.
  - destruct (between_neighbours_rank (L := BinaryKeys.ops) (Laws := BinaryKeysFacts.laws)
                tiedBoard [draft; review] (dropOnReview 1) (mkLoc "review" 1)
                (ranked "d1" "review" [] "01") (ranked "d2" "review" [] "01")
                "01" "01" (BinaryKeys.Key [false]) (BinaryKeys.Key [false])
                eq_refl eq_refl ltac:(discriminate) ltac:(discriminate)
                eq_refl eq_refl eq_refl ltac:(discriminate) eq_refl
                eq_refl ltac:(discriminate) eq_refl) as [_ H].
    apply H. reflexivity.
Defined.

End DragEndFacts.

(** ** More on the array helpers: sorting *)

Module SortFacts.

Lemma ascii_compare_refl (a : ascii) : Ascii.compare a a = Eq.
Proof. unfold Ascii.compare. apply N.compare_refl. Qed.

Lemma ascii_compare_lt_trans (a b c : ascii) :
  Ascii.compare a b = Lt -> Ascii.compare b c = Lt -> Ascii.compare a c = Lt.
Proof.
  unfold Ascii.compare. rewrite !N.compare_lt_iff. lia.
Qed.

(** The string order is transitive. *)
Lemma compare_le_trans (a : string) :
  forall b c, String.compare a b <> Gt -> String.compare b c <> Gt ->
  String.compare a c <> Gt.
Proof.
  induction a as [| x a IH]; intros b c Hab Hbc.
  - destruct c; discriminate.
  - destruct b as [| y b]; [now simpl in Hab |].
    destruct c as [| z c]; [now simpl in Hbc |].
    simpl in *.
    destruct (Ascii.compare x y) eqn:Exy; [| | congruence].
    + apply Ascii.compare_eq_iff in Exy. subst y.
      destruct (Ascii.compare x z); [now apply (IH b) | discriminate | congruence].
    + destruct (Ascii.compare y z) eqn:Eyz; [| | congruence].
      * apply Ascii.compare_eq_iff in Eyz. subst z. rewrite Exy. discriminate.
      * rewrite (ascii_compare_lt_trans _ _ _ Exy Eyz). discriminate.
Qed.

Lemma compare_refl (a : string) : String.compare a a = Eq.
Proof.
  pose proof (String.compare_antisym a a) as E.
  destruct (String.compare a a); [reflexivity | discriminate | discriminate].
Qed.

Section Sorting.
Context {A : Type} (cmp : A -> A -> comparison).
Hypothesis cmp_antisym : forall x y, cmp x y = CompOpp (cmp y x).

Let le (x y : A) : Prop := cmp x y <> Gt.

Lemma insertBy_HdRel (x y : A) (l : list A) :
  le y x -> HdRel le y l -> HdRel le y (Js.insertBy cmp x l).
Proof.
  intros Hyx Hl. destruct l as [| z r]; simpl.
  - now constructor.
  - inversion Hl; subst. destruct (cmp x z); now constructor.
Qed.

Lemma insertBy_Sorted (x : A) (l : list A) :
  Sorted le l -> Sorted le (Js.insertBy cmp x l).
Proof.
  induction 1 as [| y r Hr IH Hhd]; simpl.
  - repeat constructor.
  - destruct (cmp x y) eqn:E.
    + constructor; [now constructor |]. constructor. unfold le. congruence.
    + constructor; [now constructor |]. constructor. unfold le. congruence.
    + constructor; [assumption |]. apply insertBy_HdRel; [| assumption].
      unfold le. rewrite cmp_antisym, E. discriminate.
Qed.

Lemma sort_Sorted (l : list A) : Sorted le (Js.sort cmp l).
Proof.
  unfold Js.sort. induction l as [| x r IH]; simpl.
  - constructor.
  - now apply insertBy_Sorted.
Qed.

Lemma insertBy_Permutation (x : A) (l : list A) :
  Permutation (Js.insertBy cmp x l) (x :: l).
Proof using Type.
  induction l as [| y r IH]; simpl.
  - reflexivity.
  - destruct (cmp x y); try reflexivity.
    rewrite IH. apply perm_swap.
Qed.

Lemma sort_Permutation (l : list A) : Permutation (Js.sort cmp l) l.
Proof using Type.
  unfold Js.sort. induction l as [| x r IH]; simpl.
  - reflexivity.
  - rewrite insertBy_Permutation. now constructor.
Qed.

(** Sorting a sorted array changes nothing. *)
Lemma sort_of_Sorted (l : list A) : Sorted le l -> Js.sort cmp l = l.
Proof using Type.
  unfold Js.sort. induction 1 as [| x r Hr IH Hhd]; simpl.
  - reflexivity.
  - rewrite IH. destruct Hhd as [| y r' Hxy]; simpl; [reflexivity |].
    unfold le in Hxy. now destruct (cmp x y).
Qed.

End Sorting.

Lemma byRank_antisym (a b : Doc.t) : Filter.byRank a b = CompOpp (Filter.byRank b a).
Proof. unfold Filter.byRank, Js.localeCompare. apply String.compare_antisym. Qed.

Lemma le_rank_trans (a b c : Doc.t) :
  Order.le_rank a b -> Order.le_rank b c -> Order.le_rank a c.
Proof.
  unfold Order.le_rank, Filter.byRank, Js.localeCompare. apply compare_le_trans.
Qed.

Lemma le_rank_refl (a : Doc.t) : Order.le_rank a a.
Proof.
  unfold Order.le_rank, Filter.byRank, Js.localeCompare. now rewrite compare_refl.
Qed.

Lemma filter_filter {A} (f g : A -> bool) (l : list A) :
  filter f (filter g l) = filter (fun x => g x && f x) l.
Proof.
  induction l as [| x r IH]; simpl; [reflexivity |].
  destruct (g x); simpl; [| assumption].
  destruct (f x); now rewrite IH.
Qed.

Lemma filter_all_In {A} (f : A -> bool) (l : list A) :
  (forall x, In x l -> f x = true) -> filter f l = l.
Proof.
  induction l as [| x r IH]; simpl; intros H; [reflexivity |].
  rewrite (H x) by now left. f_equal. apply IH. intros y Hy. apply H. now right.
Qed.

Lemma filter_none {A} (f : A -> bool) (l : list A) :
  (forall x, f x = false) -> filter f l = [].
Proof.
  intros H. induction l as [| x r IH]; simpl; [reflexivity |]. now rewrite H.
Qed.

(** The filter is a sort of the items that pass the four rules. *)
Lemma filterItemsAndSort_keeps (items : list Doc.t) (stateId : string)
  (users : list string) (types : option (list string)) :
  Filter.filterItemsAndSort (Some items) stateId users types =
  Js.sort Filter.byRank (filter (Order.keeps stateId users types) items).
Proof.
  unfold Filter.filterItemsAndSort, Order.keeps.
  destruct items as [| d l]; [reflexivity |].
  rewrite !filter_filter. f_equal. apply filter_ext. intros a.
  now rewrite !andb_assoc.
Qed.

Lemma filterItemsAndSort_Sorted (items : list Doc.t) (stateId : string)
  (users : list string) (types : option (list string)) :
  StronglySorted Order.le_rank (Filter.filterItemsAndSort (Some items) stateId users types).
Proof.
  rewrite filterItemsAndSort_keeps. apply Sorted_StronglySorted.
  - intros a b c. apply le_rank_trans.
  - apply (sort_Sorted Filter.byRank byRank_antisym).
Qed.

Lemma filterItemsAndSort_In (items : list Doc.t) (stateId : string)
  (users : list string) (types : option (list string)) (item : Doc.t) :
  In item (Filter.filterItemsAndSort (Some items) stateId users types) <->
  In item items /\ Order.keeps stateId users types item = true.
Proof.
  rewrite filterItemsAndSort_keeps, In_sort. apply filter_In.
Qed.

End SortFacts.

(** ** More on the list filter *)

Module FilterMore.
Import Filter.

(** X1: the filter returns, each exactly once, the items that have an id,
    are in the requested state and pass the user rule and the type rule;
    nothing is added or repeated. *)
Theorem filter_result_is_selection (items : list Doc.t) (stateId : string)
  (users : list string) (types : option (list string)) :
  Permutation (filterItemsAndSort (Some items) stateId users types)
              (filter (Order.keeps stateId users types) items) /\
  (forall item,
     In item (filterItemsAndSort (Some items) stateId users types) <->
     In item items /\ Js.truthyOpt (Doc._id item) = true /\
     Doc.inState stateId item = true /\ byUser users item = true /\
     byType types item = true) /\
  List.length (filterItemsAndSort (Some items) stateId users types) <= List.length items.
Proof.
  split; [| split].
  - rewrite SortFacts.filterItemsAndSort_keeps. apply SortFacts.sort_Permutation.
  - intros item. rewrite SortFacts.filterItemsAndSort_In. unfold Order.keeps.
    rewrite !andb_true_iff. tauto.
  - rewrite SortFacts.filterItemsAndSort_keeps.
    rewrite (Permutation_length (SortFacts.sort_Permutation _ _)).
    apply filter_length_le.
Qed.

(** X2: the result is in ascending rank order, a missing or empty rank
    counting as "0": no item is followed, at any distance, by an item whose
    rank compares below its own. *)
Theorem filter_result_sorted (items : list Doc.t) (stateId : string)
  (users : list string) (types : option (list string)) :
  StronglySorted Order.le_rank (filterItemsAndSort (Some items) stateId users types).
Proof. apply SortFacts.filterItemsAndSort_Sorted. Qed.

(** X3: an empty, non-null selection of schema types empties the result,
    whatever the items; with a non-empty selection every item of the result
    has one of the selected types. *)
Theorem type_selection (items : option (list Doc.t)) (stateId : string)
  (users : list string) :
  filterItemsAndSort items stateId users (Some []) = [] /\
  (forall l item, In item (filterItemsAndSort items stateId users (Some l)) ->
                  In (Doc._type item) l).
Proof.
  split.
  - destruct items as [[| d l] |]; try reflexivity.
    rewrite SortFacts.filterItemsAndSort_keeps.
    rewrite SortFacts.filter_none; [reflexivity |].
    intros x. unfold Order.keeps. simpl. now rewrite andb_false_r.
  - intros l item Hin. destruct items as [items |]; [| destruct Hin].
    apply SortFacts.filterItemsAndSort_In in Hin. destruct Hin as [_ Hk].
    unfold Order.keeps in Hk. apply andb_true_iff in Hk. destruct Hk as [_ Ht].
    unfold byType in Ht. destruct (Js.nonEmpty l); [| discriminate].
    now apply includes_In.
Qed.

Lemma type_selection_witness :
  In (Doc._type (Examples.card "d1" "draft" [])) ["post"; "page"].
Proof.
  destruct (type_selection (Some [Examples.card "d1" "draft" []]) "draft" []) as [_ H].
  apply (H ["post"; "page"] (Examples.card "d1" "draft" [])).
  simpl. left. reflexivity.
Defined.

(** X4: while some users are selected, every item of the result has an
    assignee who is one of the selected users. *)
Theorem user_selection_matches (items : list Doc.t) (stateId : string)
  (users : list string) (types : option (list string)) (item : Doc.t) :
  users <> [] ->
  In item (filterItemsAndSort (Some items) stateId users types) ->
  exists assignees a,
    Doc.assignees item = Some assignees /\ In a assignees /\ In a users.
Proof.
  intros Hu Hin. apply FilterFacts.In_filterItemsAndSort in Hin.
  unfold byUser in Hin. destruct users as [| u r]; [congruence |]. simpl in Hin.
  destruct (Doc.assignees item) as [l |]; [| discriminate].
  destruct (Js.hasLength (Some l)); [| discriminate].
  apply existsb_exists in Hin. destruct Hin as (a & Ha & Hsel).
  exists l, a. repeat split; [assumption |]. now apply includes_In.
Qed.

Lemma user_selection_matches_witness :
  exists assignees a,
    Doc.assignees (Examples.card "d1" "draft" ["u2"; "u1"]) = Some assignees /\
    In a assignees /\ In a ["u1"].
Proof.
  apply (user_selection_matches [Examples.card "d1" "draft" ["u2"; "u1"]] "draft"
           ["u1"] None (Examples.card "d1" "draft" ["u2"; "u1"])).
  - discriminate.
  - simpl. left. reflexivity.
Defined.

(** X5: filtering is idempotent: the filter applied, with the same
    arguments, to its own result returns that result unchanged. *)
Theorem filter_idempotent (items : list Doc.t) (stateId : string)
  (users : list string) (types : option (list string)) :
  filterItemsAndSort (Some (filterItemsAndSort (Some items) stateId users types))
    stateId users types =
  filterItemsAndSort (Some items) stateId users types.
Proof.
  rewrite (SortFacts.filterItemsAndSort_keeps (filterItemsAndSort _ _ _ _)).
  rewrite SortFacts.filter_all_In.
  - rewrite SortFacts.filterItemsAndSort_keeps at 1 2.
    apply SortFacts.sort_of_Sorted.
    apply (SortFacts.sort_Sorted byRank SortFacts.byRank_antisym).
  - intros x Hx. now apply SortFacts.filterItemsAndSort_In in Hx.
Qed.

End FilterMore.

(** ** More on drag start *)

Module DragStartMore.
Import Board.

Lemma In_statesThatCannotBeTransitionedToIds (states : list State.t) (state : State.t)
  (id : string) :
  In id (statesThatCannotBeTransitionedToIds states state) <->
  exists tr s, State.transitions state = Some tr /\ tr <> [] /\
               In s states /\ State.id s = id /\ ~ In id tr.
Proof.
  unfold statesThatCannotBeTransitionedToIds.
  destruct (State.transitions state) as [[| t tr] |]; cbn [Js.hasLength Js.includesOpt].
  - split; [intros [] | intros (tr & s & E & Hne & _)]. injection E as <-. congruence.
  - rewrite in_map_iff. split.
    + intros (s & Hid & Hs). apply filter_In in Hs. destruct Hs as [Hs Hn].
      exists (t :: tr), s. repeat split; try assumption; [discriminate |].
      subst id. apply negb_true_iff in Hn. now apply includes_not_In in Hn.
    + intros (tr' & s & E & _ & Hs & Hid & Hn). injection E as <-.
      exists s. split; [assumption |]. apply filter_In. split; [assumption |].
      apply negb_true_iff. apply includes_not_In. now rewrite Hid.
  - split; [intros [] | intros (tr & s & E & _)]. discriminate.
Qed.

Lemma In_assignmentExclusions (states : list State.t) (user : option User.t)
  (document : Doc.t) (id : string) :
  In id (assignmentExclusions states user document) ->
  exists s, In s states /\ State.id s = id /\ State.requireAssignment s = true.
Proof.
  unfold assignmentExclusions, statesThatRequireAssignmentIds.
  destruct (Js.nonEmpty _); [| intros []].
  destruct (negb _); [| intros []].
  rewrite in_map_iff. intros (s & Hid & Hs). apply filter_In in Hs.
  exists s. tauto.
Qed.

(** X6: the transition rule.  When the source state lists transitions, each
    configured state outside that list, the source state apart, is in the
    computed set, and a state inside the list is there only if the
    assignment rule put it there.  When the source state lists none, the
    set holds what the assignment rule excludes and nothing else. *)
Theorem transition_rule (data : list Doc.t) (states : list State.t)
  (user : option User.t) (start : DragStart) (st : DragState)
  (document : Doc.t) (state : State.t) :
  find (Doc.hasDocumentId (start_draggableId start)) data = Some document ->
  find (fun x => State.id x =? droppableId (start_source start)) states = Some state ->
  let cur := droppableId (start_source start) in
  let computed := undroppableStates (handleDragStart data states user start st) in
  (forall tr s, State.transitions state = Some tr -> tr <> [] ->
     In s states -> ~ In (State.id s) tr -> State.id s <> cur ->
     In (State.id s) computed) /\
  (forall tr id, State.transitions state = Some tr -> In id tr ->
     In id computed -> In id (assignmentExclusions states user document)) /\
  (State.transitions state = None \/ State.transitions state = Some [] ->
   forall id, In id computed <->
              In id (assignmentExclusions states user document) /\ id <> cur).
Proof.
  intros Hd Hs cur computed. subst computed.
  rewrite (DragStartFacts.handleDragStart_found _ _ _ _ _ _ _ Hd Hs).
  split; [| split].
  - intros tr s Htr Hne Hin Hout Hcur.
    apply DragStartFacts.In_undroppableExceptSelf. split; [| assumption]. right.
    apply In_statesThatCannotBeTransitionedToIds. exists tr, s. tauto.
  - intros tr id Htr Hin Hc.
    apply DragStartFacts.In_undroppableExceptSelf in Hc. destruct Hc as [[Hc | Hc] _].
    + assumption.
    + apply In_statesThatCannotBeTransitionedToIds in Hc.
      destruct Hc as (tr' & s & E & _ & _ & _ & Hn). congruence.
  - intros Hnone id. rewrite DragStartFacts.In_undroppableExceptSelf.
    split; [| tauto]. intros [[Ha | Ht] Hcur]; [tauto |].
    apply In_statesThatCannotBeTransitionedToIds in Ht.
    destruct Ht as (tr & s & E & Hne & _). destruct Hnone as [N | N]; congruence.
Qed.

Lemma transition_rule_witness :
  let draftToReview :=
    State.mk "draft" "Draft" None (Some ["review"]) false false in
  let approved := State.mk "approved" "Approved" None None false false in
  In "approved"
     (undroppableStates
        (handleDragStart [Examples.card "d1" "draft" ["u1"]]
           [draftToReview; Examples.review; approved]
           (Some (User.mk "u1" None))
           (mkDragStart "d1" (mkLoc "draft" 0)) Examples.idle)).
Proof.
  intros draftToReview approved.
  destruct (transition_rule [Examples.card "d1" "draft" ["u1"]]
              [draftToReview; Examples.review; approved]
              (Some (User.mk "u1" None))
              (mkDragStart "d1" (mkLoc "draft" 0)) Examples.idle
              (Examples.card "d1" "draft" ["u1"]) draftToReview
              eq_refl eq_refl) as [H _].
  apply (H ["review"] approved eq_refl).
  - discriminate.
  - simpl. auto.
  - simpl. intros [E | []]. discriminate.
  - discriminate.
Defined.

(** X7: the computed set names configured states only. *)
Theorem undroppable_are_configured (data : list Doc.t) (states : list State.t)
  (user : option User.t) (start : DragStart) (st : DragState)
  (document : Doc.t) (state : State.t) (id : string) :
  find (Doc.hasDocumentId (start_draggableId start)) data = Some document ->
  find (fun x => State.id x =? droppableId (start_source start)) states = Some state ->
  In id (undroppableStates (handleDragStart data states user start st)) ->
  exists s, In s states /\ State.id s = id.
Proof.
  intros Hd Hs. rewrite (DragStartFacts.handleDragStart_found _ _ _ _ _ _ _ Hd Hs).
  rewrite DragStartFacts.In_undroppableExceptSelf. intros [[H | H] _].
  - apply In_assignmentExclusions in H. destruct H as (s & ? & ? & _). now exists s.
  - apply In_statesThatCannotBeTransitionedToIds in H.
    destruct H as (_ & s & _ & _ & ? & ? & _). now exists s.
Qed.

Lemma undroppable_are_configured_witness :
  exists s, In s [Examples.draft; Examples.review] /\ State.id s = "review".
Proof.
  apply (undroppable_are_configured [Examples.card "d1" "draft" []]
           [Examples.draft; Examples.review] (Some (User.mk "u1" None))
           (mkDragStart "d1" (mkLoc "draft" 0)) Examples.idle
           (Examples.card "d1" "draft" []) Examples.draft "review" eq_refl eq_refl).
  simpl. auto.
Defined.

(** X8: the handler always records the source column in [draggingFrom];
    when the dragged card or its column cannot be found it stops there and
    the undroppable set of the previous drag stays as it was. *)
Theorem drag_start_not_found (data : list Doc.t) (states : list State.t)
  (user : option User.t) (start : DragStart) (st : DragState) :
  draggingFrom (handleDragStart data states user start st) =
  droppableId (start_source start) /\
  (find (Doc.hasDocumentId (start_draggableId start)) data = None \/
   find (fun x => State.id x =? droppableId (start_source start)) states = None ->
   undroppableStates (handleDragStart data states user start st) = undroppableStates st).
Proof.
  unfold handleDragStart.
  destruct (find (Doc.hasDocumentId (start_draggableId start)) data) as [d |];
    destruct (find (fun x => State.id x =? droppableId (start_source start)) states)
      as [s |];
    (split; [reflexivity | intros [H | H]; try discriminate; reflexivity]).
Qed.

Lemma drag_start_not_found_witness :
  undroppableStates
    (handleDragStart [] [Examples.draft] None (mkDragStart "gone" (mkLoc "draft" 0))
       (mkDragState ["review"] EmptyString)) = ["review"].
Proof.
  destruct (drag_start_not_found [] [Examples.draft] None
              (mkDragStart "gone" (mkLoc "draft" 0))
              (mkDragState ["review"] EmptyString)) as [_ H].
  apply H. left. reflexivity.
Defined.

End DragStartMore.

(** ** More on drag end *)

Module DragEndMore.
Import Board.

Lemma sorted_head_least {A} (le : A -> A -> Prop) (x : A) (l : list A) :
  (forall a, le a a) -> StronglySorted le (x :: l) ->
  forall y, In y (x :: l) -> le x y.
Proof.
  intros Hrefl Hs y [<- | Hy]; [apply Hrefl |].
  inversion Hs as [| ? ? _ Hall]; subst.
  now apply (proj1 (Forall_forall _ _) Hall).
Qed.

Lemma lastOpt_cons {A} (x y : A) (l : list A) :
  Js.lastOpt (x :: y :: l) = Js.lastOpt (y :: l).
Proof. unfold Js.lastOpt. simpl. now rewrite Nat.sub_0_r. Qed.

Lemma lastOpt_In {A} (l : list A) (z : A) : Js.lastOpt l = Some z -> In z l.
Proof. unfold Js.lastOpt. apply nth_error_In. Qed.

Lemma sorted_last_greatest {A} (le : A -> A -> Prop) (l : list A) (z : A) :
  (forall a, le a a) -> StronglySorted le l -> Js.lastOpt l = Some z ->
  forall y, In y l -> le y z.
Proof.
  intros Hrefl Hs. induction Hs as [| x r Hr IH Hall]; intros Hz y Hy.
  - destruct Hy.
  - destruct r as [| x' r'].
    + injection Hz as <-. destruct Hy as [<- | []]. apply Hrefl.
    + rewrite lastOpt_cons in Hz. destruct Hy as [<- | Hy].
      * apply (proj1 (Forall_forall _ _) Hall). now apply lastOpt_In.
      * now apply IH.
Qed.

Lemma hd_error_nonEmpty {A} (l : list A) (x : A) :
  hd_error l = Some x -> Js.nonEmpty l = true.
Proof. destruct l; [discriminate | reflexivity]. Qed.

Lemma data_nonEmpty (data : list Doc.t) (stateId : string) :
  Js.nonEmpty (Filter.filterItemsAndSort (Some data) stateId [] None) = true ->
  Js.nonEmpty data = true.
Proof. destruct data; [discriminate | reflexivity]. Qed.

(** Membership in a column, as [handleDragEnd] lists it. *)
Lemma column_In (data : list Doc.t) (stateId : string) (item : Doc.t) :
  In item data -> Js.truthyOpt (Doc._id item) = true -> Doc.inState stateId item = true ->
  In item (Filter.filterItemsAndSort (Some data) stateId [] None).
Proof.
  intros Hin Hid Hst. apply SortFacts.filterItemsAndSort_In. split; [assumption |].
  unfold Order.keeps. now rewrite Hid, Hst.
Qed.

Section WithRankLibrary.
Context {L : LexoRankOps}.

(** X9: the guards of the handler.  Nothing is done exactly when there is no
    destination or the card is dropped where it was; the data error is
    reported exactly when the card was moved and no data is loaded; in every
    other case a rank is computed or the rank library throws. *)
Theorem handleDragEnd_guards (data : list Doc.t) (states : list State.t)
  (result : DropResult) :
  (handleDragEnd data states result = Ignored <->
   destination result = None \/
   exists dest, destination result = Some dest /\
                droppableId dest = droppableId (source result) /\
                index dest = index (source result)) /\
  (handleDragEnd data states result = NoData <->
   exists dest, destination result = Some dest /\
                ~ (droppableId dest = droppableId (source result) /\
                   index dest = index (source result)) /\
                data = []).
Proof.
  unfold handleDragEnd.
  destruct (destination result) as [dest |].
  - set (same := (droppableId dest =? droppableId (source result))
                 && (index dest =? index (source result))%nat).
    assert (Hsame : same = true <->
                    droppableId dest = droppableId (source result) /\
                    index dest = index (source result)).
    { unfold same. now rewrite andb_true_iff, String.eqb_eq, Nat.eqb_eq. }
    destruct same.
    + split; split.
      * intros _. right. exists dest. split; [reflexivity | now apply Hsame].
      * reflexivity.
      * discriminate.
      * intros (d & E & Hn & _). injection E as <-. exfalso. now apply Hn, Hsame.
    + assert (Hns : ~ (droppableId dest = droppableId (source result) /\
                       index dest = index (source result))).
      { intros HP. apply Hsame in HP. discriminate. }
      destruct data as [| d0 l]; cbn [Js.nonEmpty negb].
      * split; split.
        -- discriminate.
        -- intros [H | (d & E & HP)]; [discriminate | injection E as <-; tauto].
        -- intros _. exists dest. auto.
        -- reflexivity.
      * split; split.
        -- destruct (newOrder _ _ _ _ _ _); discriminate.
        -- intros [H | (d & E & HP)]; [discriminate | injection E as <-; tauto].
        -- destruct (newOrder _ _ _ _ _ _); discriminate.
        -- intros (d & _ & _ & E). discriminate.
  - split; split.
    + intros _. now left.
    + reflexivity.
    + discriminate.
    + intros (d & E & _). discriminate.
Qed.

(** The allocator at the top of a column whose first card carries a rank. *)
Lemma newOrder_top (items : list Doc.t) (dsi : Z) (n : nat) (gmin gmax : string)
  (first : Doc.t) (s : string) (r : LexoRank) :
  hd_error items = Some first ->
  Doc.orderRank first = Some s -> s <> EmptyString -> lr_parse s = Some r ->
  newOrder items dsi n 0 gmin gmax = Some (lr_toString (lr_genPrev r)).
Proof.
  intros Hh Hs Hne Hp. unfold newOrder.
  rewrite (hd_error_nonEmpty _ _ Hh). cbn [negb Nat.eqb]. rewrite Hh, Hs.
  cbn [Js.truthyOpt]. rewrite (DragEndFacts.truthy_true _ Hne). cbn [bind].
  now rewrite Hp.
Qed.

(** The allocator at the last index of a column whose last card carries a
    rank. *)
Lemma newOrder_bottom (items : list Doc.t) (dsi : Z) (n i : nat) (gmin gmax : string)
  (last : Doc.t) (s : string) (r : LexoRank) :
  i <> 0 -> i + 1 = List.length items ->
  Js.lastOpt items = Some last ->
  Doc.orderRank last = Some s -> s <> EmptyString -> lr_parse s = Some r ->
  newOrder items dsi n i gmin gmax = Some (lr_toString (lr_genNext r)).
Proof.
  intros Hi Hlen Hl Hs Hne Hp. unfold newOrder.
  assert (Hn : Js.nonEmpty items = true)
    by (destruct items; [simpl in Hlen; lia | reflexivity]).
  rewrite Hn. cbn [negb].
  apply Nat.eqb_neq in Hi. rewrite Hi.
  apply Nat.eqb_eq in Hlen. rewrite Hlen.
  rewrite Hl, Hs. cbn [Js.truthyOpt]. rewrite (DragEndFacts.truthy_true _ Hne).
  cbn [bind]. now rewrite Hp.
Qed.

(** X10: a card dropped at the top of a column whose first card has a rank
    gets the rank generated before that rank, and that first card is the one
    with the least rank of the column (under the order the board sorts by). *)
Theorem drop_on_top (data : list Doc.t) (states : list State.t)
  (result : DropResult) (dest : DraggableLocation)
  (first : Doc.t) (s : string) (r : LexoRank) :
  destination result = Some dest ->
  (droppableId dest =? droppableId (source result))
    && (index dest =? index (source result))%nat = false ->
  index dest = 0 ->
  hd_error (Filter.filterItemsAndSort (Some data) (droppableId dest) [] None) = Some first ->
  Doc.orderRank first = Some s -> s <> EmptyString -> lr_parse s = Some r ->
  handleDragEnd data states result = Moved (lr_toString (lr_genPrev r)) /\
  (forall item, In item data -> Js.truthyOpt (Doc._id item) = true ->
                Doc.inState (droppableId dest) item = true ->
                Order.le_rank first item).
Proof.
  intros Hd Hpos Hi Hh Hs Hne Hp. split.
  - rewrite (DragEndFacts.handleDragEnd_moves _ _ _ _ Hd Hpos
               (data_nonEmpty _ _ (hd_error_nonEmpty _ _ Hh))).
    rewrite Hi. now rewrite (newOrder_top _ _ _ _ _ first s r Hh Hs Hne Hp).
  - intros item Hin Hid Hst.
    pose proof (SortFacts.filterItemsAndSort_Sorted data (droppableId dest) [] None) as Hsorted.
    pose proof (column_In _ _ _ Hin Hid Hst) as Hcol.
    destruct (Filter.filterItemsAndSort (Some data) (droppableId dest) [] None)
      as [| x l]; [destruct Hcol |].
    injection Hh as ->.
    now apply (sorted_head_least Order.le_rank first l SortFacts.le_rank_refl).
Qed.

(** X11: a card dropped on the last index of a column whose last card has a
    rank gets the rank generated after that rank, and that last card is the
    one with the greatest rank of the column. *)
Theorem drop_on_bottom (data : list Doc.t) (states : list State.t)
  (result : DropResult) (dest : DraggableLocation)
  (last : Doc.t) (s : string) (r : LexoRank) :
  destination result = Some dest ->
  (droppableId dest =? droppableId (source result))
    && (index dest =? index (source result))%nat = false ->
  let items := Filter.filterItemsAndSort (Some data) (droppableId dest) [] None in
  index dest <> 0 ->
  index dest + 1 = List.length items ->
  Js.lastOpt items = Some last ->
  Doc.orderRank last = Some s -> s <> EmptyString -> lr_parse s = Some r ->
  handleDragEnd data states result = Moved (lr_toString (lr_genNext r)) /\
  (forall item, In item data -> Js.truthyOpt (Doc._id item) = true ->
                Doc.inState (droppableId dest) item = true ->
                Order.le_rank item last).
Proof.
  intros Hd Hpos items Hi Hlen Hl Hs Hne Hp. split.
  - assert (Hn : Js.nonEmpty data = true).
    { apply (data_nonEmpty data (droppableId dest)). fold items.
      destruct items; [simpl in Hlen; lia | reflexivity]. }
    rewrite (DragEndFacts.handleDragEnd_moves _ _ _ _ Hd Hpos Hn). fold items.
    now rewrite (newOrder_bottom items _ _ _ _ _ last s r Hi Hlen Hl Hs Hne Hp).
  - intros item Hin Hid Hst.
    apply (sorted_last_greatest Order.le_rank items last SortFacts.le_rank_refl).
    + apply SortFacts.filterItemsAndSort_Sorted.
    + assumption.
    + now apply column_In.
Qed.

End WithRankLibrary.

Lemma drop_on_top_witness :
  handleDragEnd (L := BinaryKeys.ops) Examples.orderedBoard
    [Examples.draft; Examples.review] (Examples.dropOnReview 0) = Moved "00001".
Proof.
  apply (drop_on_top (L := BinaryKeys.ops) Examples.orderedBoard
           [Examples.draft; Examples.review] (Examples.dropOnReview 0)
           (mkLoc "review" 0) (Examples.ranked "d1" "review" [] "01") "01"
           (BinaryKeys.Key [false])
           eq_refl eq_refl eq_refl eq_refl eq_refl ltac:(discriminate) eq_refl).
Defined.

Lemma drop_on_bottom_witness :
  handleDragEnd (L := BinaryKeys.ops) Examples.orderedBoard
    [Examples.draft; Examples.review] (Examples.dropOnReview 2) = Moved "1001".
Proof.
  apply (drop_on_bottom (L := BinaryKeys.ops) Examples.orderedBoard
           [Examples.draft; Examples.review] (Examples.dropOnReview 2)
           (mkLoc "review" 2) (Examples.ranked "d3" "review" [] "1") "1"
           (BinaryKeys.Key [])
           eq_refl eq_refl ltac:(discriminate) eq_refl eq_refl eq_refl
           ltac:(discriminate) eq_refl).
Defined.

End DragEndMore.

(** ** Drag end: a card dropped after the last card of a column *)

Module DragEndAppend.
Import Board.

Section WithRankLibrary.
Context {L : LexoRankOps}.

(** The allocator past the last card: the index equals the number of cards,
    so the branch for the last index is not taken and the upper neighbour is
    missing. *)
Lemma newOrder_past_last (items : list Doc.t) (n : nat) (gmin gmax : string)
  (last : Doc.t) (s : string) (b : LexoRank) :
  Js.lastOpt items = Some last ->
  Doc.orderRank last = Some s -> s <> EmptyString -> lr_parse s = Some b ->
  newOrder items (Z.of_nat n - 1) n (List.length items) gmin gmax =
  if lr_toString b =? lr_toString lr_max
  then Some (lr_toString (lr_genNext b))
  else bind (lr_between b lr_max) (fun r => Some (lr_toString r)).
Proof.
  intros Hl Hs Hne Hp. unfold newOrder.
  assert (Hn : Js.nonEmpty items = true).
  { destruct items; [discriminate | reflexivity]. }
  rewrite Hn. cbn [negb].
  assert (H0 : (List.length items =? 0)%nat = false).
  { destruct items; [discriminate | reflexivity]. }
  rewrite H0.
  assert (H1 : (List.length items + 1 =? List.length items)%nat = false).
  { apply Nat.eqb_neq. lia. }
  rewrite H1. unfold Js.lastOpt in Hl. rewrite Hl. cbn [bind]. rewrite Hs.
  cbn [Js.truthyOpt]. rewrite (DragEndFacts.truthy_true _ Hne). cbn [bind]. rewrite Hp.
  assert (H2 : nth_error items (List.length items) = None).
  { apply nth_error_None. lia. }
  rewrite H2. cbn [bind Js.truthyOpt]. rewrite Z.eqb_refl. reflexivity.
Qed.

Context {Laws : LexoRankLaws L}.

(** X12: a card dropped after the last card of the last configured column
    (the index is the number of cards there) is ranked against the maximum:
    strictly between the last card's rank and the maximum rank when the
    former is below the latter, and by the rank generated after the last
    card's when the two are equal. *)
Theorem append_after_last (data : list Doc.t) (states : list State.t)
  (result : DropResult) (dest : DraggableLocation)
  (last : Doc.t) (s : string) (b : LexoRank) :
  destination result = Some dest ->
  (droppableId dest =? droppableId (source result))
    && (index dest =? index (source result))%nat = false ->
  let items := Filter.filterItemsAndSort (Some data) (droppableId dest) [] None in
  index dest = List.length items ->
  Js.lastOpt items = Some last ->
  Doc.orderRank last = Some s -> s <> EmptyString -> lr_parse s = Some b ->
  Js.findIndex (fun x => State.id x =? droppableId dest) states
    = (Z.of_nat (List.length states) - 1)%Z ->
  (rank_lt (lr_toString b) (lr_toString lr_max) ->
   exists r, handleDragEnd data states result = Moved r /\
             rank_lt (lr_toString b) r /\ rank_lt r (lr_toString lr_max)) /\
  (lr_toString b = lr_toString lr_max ->
   handleDragEnd data states result = Moved (lr_toString (lr_genNext b))).
Proof.
  intros Hd Hpos items Hi Hl Hs Hne Hp Hlast.
  assert (Hn : Js.nonEmpty data = true).
  { apply (DragEndMore.data_nonEmpty data (droppableId dest)). fold items.
    destruct items; [discriminate | reflexivity]. }
  rewrite (DragEndFacts.handleDragEnd_moves _ _ _ _ Hd Hpos Hn). fold items.
  rewrite Hlast, Hi.
  rewrite (newOrder_past_last items _ _ _ last s b Hl Hs Hne Hp).
  split.
  - intros Hlt. destruct (between_lt b lr_max Hlt) as (r & Hr & Hbr & Hrm).
    apply DragEndFacts.rank_lt_neq in Hlt. apply String.eqb_neq in Hlt.
    rewrite Hlt, Hr. simpl. now exists (lr_toString r).
  - intros Heq. apply String.eqb_eq in Heq. now rewrite Heq.
Qed.

End WithRankLibrary.

Lemma append_after_last_witness :
  exists r, handleDragEnd (L := BinaryKeys.ops) Examples.orderedBoard
              [Examples.draft; Examples.review] (Examples.dropOnReview 3) = Moved r /\
            rank_lt "1" r /\ rank_lt r "2".
Proof.
  destruct (append_after_last (L := BinaryKeys.ops) (Laws := BinaryKeysFacts.laws)
              Examples.orderedBoard [Examples.draft; Examples.review]
              (Examples.dropOnReview 3) (mkLoc "review" 3)
              (Examples.ranked "d3" "review" [] "1") "1" (BinaryKeys.Key [])
              eq_refl eq_refl eq_refl eq_refl eq_refl ltac:(discriminate) eq_refl
              eq_refl) as [H _].
  apply H. reflexivity.
Defined.

End DragEndAppend.

(** ** Selections *)

Module SelectionFacts.
Import Selection.

Lemma In_filter_neq (x y : string) (l : list string) :
  In y (filter (fun u => negb (u =? x)) l) <-> In y l /\ y <> x.
Proof.
  rewrite filter_In, negb_true_iff. now rewrite String.eqb_neq.
Qed.

(** X13: a toggle flips the membership of the toggled id and leaves the
    membership of every other id as it was. *)
Theorem toggle_flips (prev : list string) (x : string) :
  (In x (toggle prev x) <-> ~ In x prev) /\
  (forall y, y <> x -> (In y (toggle prev x) <-> In y prev)).
Proof.
  unfold toggle. destruct (Js.includes prev x) eqn:E.
  - apply includes_In in E. split.
    + rewrite In_filter_neq. tauto.
    + intros y Hy. rewrite In_filter_neq. tauto.
  - apply includes_not_In in E. split.
    + rewrite in_app_iff. simpl. tauto.
    + intros y Hy. rewrite in_app_iff. simpl. split; [| tauto].
      intros [H | [H | []]]; [assumption | congruence].
Qed.

(** X14: toggling twice an id that was not selected gives the selection
    back unchanged; in general two toggles keep the same ids, and a
    selection without repetition stays without repetition. *)
Theorem toggle_twice (prev : list string) (x : string) :
  (~ In x prev -> toggle (toggle prev x) x = prev) /\
  (forall y, In y (toggle (toggle prev x) x) <-> In y prev) /\
  (NoDup prev -> NoDup (toggle prev x)).
Proof.
  split; [| split].
  - intros H. unfold toggle at 2. apply includes_not_In in H as E. rewrite E.
    unfold toggle.
    assert (I : Js.includes (prev ++ [x]) x = true).
    { apply includes_In. apply in_app_iff. right. now left. }
    rewrite I, filter_app. simpl. rewrite String.eqb_refl. simpl.
    rewrite app_nil_r. now apply filter_drop_absent.
  - intros y. unfold toggle at 2. destruct (Js.includes prev x) eqn:E.
    + apply includes_In in E. unfold toggle.
      assert (I : Js.includes (filter (fun u => negb (u =? x)) prev) x = false).
      { apply includes_not_In. apply filter_drop_gone. }
      rewrite I, in_app_iff, In_filter_neq. simpl.
      destruct (String.eqb_spec y x) as [-> | Hne]; [tauto |].
      split; [| tauto]. intros [[H _] | [H | []]]; [assumption | congruence].
    + apply includes_not_In in E. unfold toggle.
      assert (I : Js.includes (prev ++ [x]) x = true).
      { apply includes_In. apply in_app_iff. right. now left. }
      rewrite I, In_filter_neq, in_app_iff. simpl. split.
      * intros [[H | [H | []]] Hne]; [assumption | congruence].
      * intros H. split; [now left |]. intros ->. contradiction.
  - intros Hnd. unfold toggle. destruct (Js.includes prev x) eqn:E.
    + now apply NoDup_filter.
    + apply includes_not_In in E. apply NoDup_app; [assumption | | ].
      * repeat constructor. intros [].
      * intros y Hy [<- | []]. contradiction.
Qed.

Lemma toggle_twice_witness :
  toggle (toggle ["u1"; "u2"] "u3") "u3" = ["u1"; "u2"] /\
  NoDup (toggle ["u1"; "u2"] "u1").
Proof.
  destruct (toggle_twice ["u1"; "u2"] "u3") as [H _].
  destruct (toggle_twice ["u1"; "u2"] "u1") as [_ [_ K]].
  split.
  - apply H. simpl. intros [E | [E | []]]; discriminate.
  - apply K. repeat constructor; simpl; intuition discriminate.
Defined.

(** X15: the list of invalid documents.  ADD appends without looking, so an
    id may be listed several times; one REMOVE takes every occurrence out,
    however many times the id was added, and touches no other id. *)
Theorem invalid_ids_remove_all (prev : list string) (docId : string) (n : nat) :
  let added := Nat.iter n (fun l => toggleInvalidDocumentId l docId ADD) prev in
  count_occ string_dec added docId = count_occ string_dec prev docId + n /\
  ~ In docId (toggleInvalidDocumentId added docId REMOVE) /\
  (forall y, y <> docId ->
     (In y (toggleInvalidDocumentId added docId REMOVE) <-> In y prev)).
Proof.
  cbn zeta. set (f := fun l => toggleInvalidDocumentId l docId ADD).
  assert (Hstep : forall k, Nat.iter (S k) f prev = Nat.iter k f prev ++ [docId])
    by reflexivity.
  assert (Hin : forall y, y <> docId -> (In y (Nat.iter n f prev) <-> In y prev)).
  { intros y Hy. induction n as [| n IH]; [reflexivity |].
    rewrite Hstep, in_app_iff, IH. simpl. split; [| tauto].
    intros [H | [H | []]]; [assumption | congruence]. }
  split; [| split].
  - clear Hin. induction n as [| n IH]; [simpl; lia |].
    rewrite Hstep, count_occ_app, IH. simpl.
    destruct (string_dec docId docId); [lia | congruence].
  - apply filter_drop_gone.
  - intros y Hy. unfold toggleInvalidDocumentId.
    rewrite In_filter_neq. rewrite (Hin y Hy). tauto.
Qed.

End SelectionFacts.

Module SelectionWitnesses.
Import Selection.

Lemma toggle_flips_witness :
  In "u2" (toggle ["u1"; "u2"] "u1") /\ ~ In "u1" (toggle ["u1"; "u2"] "u1").
Proof.
  destruct (SelectionFacts.toggle_flips ["u1"; "u2"] "u1") as [H K]. split.
  - apply (K "u2"); [discriminate | simpl; auto].
  - intros Hin. apply H in Hin. apply Hin. simpl. auto.
Defined.

Lemma invalid_ids_remove_all_witness :
  In "b" (toggleInvalidDocumentId
            (Nat.iter 3 (fun l => toggleInvalidDocumentId l "a" ADD) ["a"; "b"])
            "a" REMOVE).
Proof.
  destruct (SelectionFacts.invalid_ids_remove_all ["a"; "b"] "a" 3) as [_ [_ H]].
  apply (H "b"); [discriminate | simpl; auto].
Defined.

End SelectionWitnesses.

(** ** The users assigned somewhere on the board *)

Module AssignedUsersFacts.
Import AssignedUsers.

Lemma In_collect (acc : list string) (item : Doc.t) (a : string) :
  In a (collect acc item) <-> In a acc \/ In a (Board.documentAssignees item).
Proof.
  unfold collect. destruct (Board.documentAssignees item) as [| x l] eqn:E.
  - simpl. tauto.
  - cbn [Js.nonEmpty]. set (new := filter _ (x :: l)).
    assert (Hnew : forall b, In b new <-> In b (x :: l) /\ ~ In b acc).
    { intros b. unfold new. rewrite filter_In, negb_true_iff.
      now rewrite includes_not_In. }
    destruct new as [| y r] eqn:En; cbn [Js.nonEmpty].
    + split; [tauto |]. intros [H | H]; [assumption |].
      destruct (in_dec string_dec a acc) as [I | I]; [assumption |].
      exfalso. apply (proj2 (Hnew a)). now split.
    + rewrite in_app_iff, Hnew. destruct (in_dec string_dec a acc); tauto.
Qed.

Lemma In_fold_collect (data : list Doc.t) (acc : list string) (a : string) :
  In a (fold_left collect data acc) <->
  In a acc \/ exists item, In item data /\ In a (Board.documentAssignees item).
Proof.
  revert acc. induction data as [| d r IH]; intros acc; simpl.
  - split; [tauto | intros [H | (i & [] & _)]; assumption].
  - rewrite IH, In_collect. split.
    + intros [[H | H] | (i & Hi & Ha)]; [tauto | right; exists d; tauto |].
      right. exists i. tauto.
    + intros [H | (i & [<- | Hi] & Ha)]; [tauto | tauto |].
      right. exists i. tauto.
Qed.

Lemma NoDup_collect (acc : list string) (item : Doc.t) :
  NoDup acc -> NoDup (Board.documentAssignees item) -> NoDup (collect acc item).
Proof.
  intros Ha Hi. unfold collect.
  destruct (Js.nonEmpty (Board.documentAssignees item)); [| assumption].
  destruct (Js.nonEmpty _); [| assumption].
  apply NoDup_app; [assumption | now apply NoDup_filter |].
  intros a Hin Hf. apply filter_In in Hf. destruct Hf as [_ Hf].
  apply negb_true_iff, includes_not_In in Hf. contradiction.
Qed.

Lemma NoDup_fold_collect (data : list Doc.t) (acc : list string) :
  (forall item, In item data -> NoDup (Board.documentAssignees item)) ->
  NoDup acc -> NoDup (fold_left collect data acc).
Proof.
  revert acc. induction data as [| d r IH]; intros acc Hd Ha; simpl.
  - assumption.
  - apply IH.
    + intros i Hi. apply Hd. now right.
    + apply NoDup_collect; [assumption | apply Hd; now left].
Qed.

Lemma count_collect_known (acc : list string) (item : Doc.t) (a : string) :
  In a acc ->
  count_occ string_dec (collect acc item) a = count_occ string_dec acc a.
Proof.
  intros Hin. unfold collect.
  destruct (Js.nonEmpty (Board.documentAssignees item)); [| reflexivity].
  destruct (Js.nonEmpty _); [| reflexivity].
  rewrite count_occ_app.
  assert (E : count_occ string_dec
                (filter (fun a0 => negb (Js.includes acc a0))
                        (Board.documentAssignees item)) a = 0).
  { apply count_occ_not_In. intros Hf. apply filter_In in Hf. destruct Hf as [_ Hf].
    apply negb_true_iff, includes_not_In in Hf. contradiction. }
  rewrite E. lia.
Qed.

Lemma count_fold_collect_known (data : list Doc.t) (acc : list string) (a : string) :
  In a acc ->
  count_occ string_dec (fold_left collect data acc) a = count_occ string_dec acc a.
Proof.
  revert acc. induction data as [| d r IH]; intros acc Hin; simpl; [reflexivity |].
  rewrite IH.
  - now apply count_collect_known.
  - apply In_collect. now left.
Qed.

Lemma collect_first (item : Doc.t) : collect [] item = Board.documentAssignees item.
Proof.
  unfold collect. destruct (Board.documentAssignees item) as [| x l]; [reflexivity |].
  cbn [Js.nonEmpty]. rewrite filter_accepting by reflexivity. reflexivity.
Qed.

Lemma In_uniqueUserIds (data : list Doc.t) (a : string) :
  In a (uniqueUserIds data) <->
  exists item, In item data /\ In a (Board.documentAssignees item).
Proof. unfold uniqueUserIds. rewrite In_fold_collect. simpl. tauto. Qed.

(** X16: the collected ids are exactly the ids assigned to some card, and
    the users offered by the user filter are exactly the project users
    assigned to some card. *)
Theorem unique_ids_are_the_assignees (users : list ProjectUser) (data : list Doc.t) :
  (forall a, In a (uniqueUserIds data) <->
             exists item, In item data /\ In a (Board.documentAssignees item)) /\
  (forall u, In u (uniqueAssignedUsers users data) <->
             In u users /\
             exists item, In item data /\ In (id u) (Board.documentAssignees item)).
Proof.
  split; [apply In_uniqueUserIds |].
  intros u. unfold uniqueAssignedUsers. destruct data as [| d r].
  - simpl. split; [intros [] | intros (_ & i & [] & _)].
  - cbn [Js.nonEmpty negb]. now rewrite filter_In, includes_In, In_uniqueUserIds.
Qed.

(** X17: ids are collected without repetition across cards, but not within
    a card: if no card lists an assignee twice the collected ids are all
    distinct, while an id that the first card lists several times is
    collected that many times. *)
Theorem unique_ids_repetition (item : Doc.t) (rest : list Doc.t) :
  ((forall i, In i (item :: rest) -> NoDup (Board.documentAssignees i)) ->
   NoDup (uniqueUserIds (item :: rest))) /\
  (forall a, In a (Board.documentAssignees item) ->
     count_occ string_dec (uniqueUserIds (item :: rest)) a =
     count_occ string_dec (Board.documentAssignees item) a).
Proof.
  unfold uniqueUserIds. simpl. rewrite collect_first. split.
  - intros H. apply NoDup_fold_collect.
    + intros i Hi. apply H. now right.
    + apply H. now left.
  - intros a Ha. now apply count_fold_collect_known.
Qed.

Lemma unique_ids_repetition_witness :
  NoDup (uniqueUserIds [Examples.card "d1" "draft" ["u1"; "u2"];
                        Examples.card "d2" "draft" ["u2"; "u3"]]) /\
  count_occ string_dec
    (uniqueUserIds [Examples.card "d1" "draft" ["u1"; "u1"];
                    Examples.card "d2" "draft" ["u1"]]) "u1" = 2.
Proof.
  split.
  - destruct (unique_ids_repetition (Examples.card "d1" "draft" ["u1"; "u2"])
                [Examples.card "d2" "draft" ["u2"; "u3"]]) as [H _].
    apply H. intros i [<- | [<- | []]]; simpl;
      repeat constructor; simpl; intuition discriminate.
  - destruct (unique_ids_repetition (Examples.card "d1" "draft" ["u1"; "u1"])
                [Examples.card "d2" "draft" ["u1"]]) as [_ H].
    apply (H "u1"). simpl. auto.
Defined.

(** X18: after the data changes, the selected users are pruned: what stays
    selected was selected before and is assigned to some card; with no data
    nothing stays selected; pruning again changes nothing. *)
Theorem selected_users_pruned (data : list Doc.t) (prev : list string) :
  (forall u, In u (pruneSelectedUserIds data prev) <->
             In u prev /\
             exists item, In item data /\ In u (Board.documentAssignees item)) /\
  pruneSelectedUserIds [] prev = [] /\
  pruneSelectedUserIds data (pruneSelectedUserIds data prev) =
  pruneSelectedUserIds data prev.
Proof.
  split; [| split].
  - intros u. unfold pruneSelectedUserIds. destruct data as [| d r].
    + simpl. split; [intros [] | intros (_ & i & [] & _)].
    + cbn [Js.nonEmpty negb]. now rewrite filter_In, includes_In, In_uniqueUserIds.
  - reflexivity.
  - unfold pruneSelectedUserIds. destruct (negb (Js.nonEmpty data)); [reflexivity |].
    apply SortFacts.filter_all_In. intros x Hx. now apply filter_In in Hx.
Qed.

End AssignedUsersFacts.

(** ** More on the dependency manager *)

Module DependencyMore.
Import DependencyManager.

(** X19: a dependency list without repetition stays without repetition
    under both handlers; an accepted candidate ends the new list, and
    offering it a second time is rejected as a duplicate. *)
Theorem dependencies_stay_distinct (p : Props) (x : string) :
  NoDup (currentDependencies p) ->
  NoDup (handleRemoveDependency p x) /\
  (forall l, handleAddDependency p x = Added l ->
     NoDup l /\ l = currentDependencies p ++ [x] /\
     handleAddDependency (mkProps (documentId p) l) x = RejectedDuplicate).
Proof.
  intros Hnd. split.
  - unfold handleRemoveDependency. now apply NoDup_filter.
  - intros l. rewrite DependencyFacts.handleAddDependency_cases.
    destruct (Js.includes (currentDependencies p) x) eqn:E; [discriminate |].
    intros [= <-]. apply includes_not_In in E. repeat split.
    + apply NoDup_app; [assumption | repeat constructor; intros [] |].
      intros y Hy [<- | []]. contradiction.
    + rewrite DependencyFacts.handleAddDependency_cases. simpl.
      assert (I : Js.includes (currentDependencies p ++ [x]) x = true).
      { apply includes_In, in_app_iff. right. now left. }
      now rewrite I.
Qed.

Lemma dependencies_stay_distinct_witness :
  NoDup (handleRemoveDependency (mkProps "d" ["a"; "b"]) "a") /\
  handleAddDependency (mkProps "d" ["a"; "b"; "c"]) "c" = RejectedDuplicate.
Proof.
  assert (Hnd : NoDup ["a"; "b"]).
  { repeat constructor; simpl; intuition discriminate. }
  destruct (dependencies_stay_distinct (mkProps "d" ["a"; "b"]) "a" Hnd) as [H _].
  destruct (dependencies_stay_distinct (mkProps "d" ["a"; "b"]) "c" Hnd) as [_ K].
  split; [exact H |].
  apply (K ["a"; "b"; "c"] eq_refl).
Defined.

End DependencyMore.

Module DependencyViewFacts.
Import DependencyView.

Lemma find_id (availableDocuments : list DocumentOption) (depId : string)
  (doc : DocumentOption) :
  find (fun d => id d =? depId) availableDocuments = Some doc ->
  In doc availableDocuments /\ id doc = depId.
Proof.
  intros H. apply find_some in H. destruct H as [Hin Heq].
  now apply String.eqb_eq in Heq.
Qed.

Lemma find_none_existsb (availableDocuments : list DocumentOption) (depId : string) :
  find (fun d => id d =? depId) availableDocuments = None <->
  existsb (fun d => id d =? depId) availableDocuments = false.
Proof.
  induction availableDocuments as [| d r IH]; simpl; [tauto |].
  destruct (id d =? depId); simpl; [split; discriminate | exact IH].
Qed.

(** X20: the dependencies displayed are, in the order of the dependency
    list, those whose id is the id of an available document; a dependency
    that is not among the available documents is left out without notice,
    so fewer entries may be shown than the list holds. *)
Theorem displayed_dependencies (currentDependencies : list string)
  (availableDocuments : list DocumentOption) :
  map id (dependencyDocuments currentDependencies availableDocuments) =
  filter (fun depId => existsb (fun d => id d =? depId) availableDocuments)
         currentDependencies /\
  (forall doc, In doc (dependencyDocuments currentDependencies availableDocuments) ->
               In doc availableDocuments /\ In (id doc) currentDependencies) /\
  List.length (dependencyDocuments currentDependencies availableDocuments)
    <= List.length currentDependencies.
Proof.
  unfold dependencyDocuments. split; [| split].
  - induction currentDependencies as [| x r IH]; simpl; [reflexivity |].
    destruct (find (fun d => id d =? x) availableDocuments) as [doc |] eqn:E.
    + simpl. rewrite IH. destruct (find_id _ _ _ E) as [_ Hid].
      destruct (existsb (fun d => id d =? x) availableDocuments) eqn:Ex.
      * now rewrite Hid.
      * apply find_none_existsb in Ex. congruence.
    + simpl. apply find_none_existsb in E. now rewrite E.
  - intros doc Hin. apply in_flat_map in Hin. destruct Hin as (found & Hf & Hd).
    apply in_map_iff in Hf. destruct Hf as (depId & Hfind & Hdep).
    destruct found as [d |]; [| destruct Hd]. destruct Hd as [<- | []].
    apply find_id in Hfind as [Hin Hid]. split; [assumption | now rewrite Hid].
  - induction currentDependencies as [| x r IH]; simpl; [lia |].
    destruct (find _ availableDocuments); simpl; lia.
Qed.

Lemma displayed_dependencies_witness :
  let a := mkOption "a" "Post A" "post" None "draft" in
  In a [a] /\ In (id a) ["gone"; "a"].
Proof.
  intros a.
  destruct (displayed_dependencies ["gone"; "a"] [a]) as [_ [H _]].
  apply (H a). simpl. auto.
Defined.

End DependencyViewFacts.

(** ** Assigning users *)

Module UserAssignmentFacts.
Import UserAssignment.



Lemma addAssignee_changes (p : Props) (processing : list string) (userId : string)
  (commitOk : bool) :
  assigneesChanges (addAssignee p processing userId commitOk) =
  if canAdd p processing userId
  then if commitOk then [safeAssignees p ++ [userId]]
       else [safeAssignees p ++ [userId]; safeAssignees p]
  else [].
Proof.
  unfold addAssignee, canAdd.
  destruct (Js.includes processing userId); [reflexivity |].
  destruct (Js.truthy userId), (knownUser p userId); try reflexivity.
  cbn [negb orb andb]. destruct (Js.includes (safeAssignees p) userId); [reflexivity |].
  now destruct commitOk.
Qed.

Lemma addAssignee_patch (p : Props) (processing : list string) (userId : string)
  (commitOk : bool) :
  patchSent (addAssignee p processing userId commitOk) = canAdd p processing userId.
Proof.
  unfold addAssignee, canAdd.
  destruct (Js.includes processing userId); [reflexivity |].
  destruct (Js.truthy userId), (knownUser p userId); try reflexivity.
  cbn [negb orb andb]. destruct (Js.includes (safeAssignees p) userId); [reflexivity |].
  now destruct commitOk.
Qed.




Lemma removeAssignee_changes (p : Props) (processing : list string)
  (userId : string) (commitOk : bool) :
  assigneesChanges (removeAssignee p processing userId commitOk) =
  if canRemove p processing userId
  then if commitOk then [filter (fun id => negb (id =? userId)) (safeAssignees p)]
       else [filter (fun id => negb (id =? userId)) (safeAssignees p); safeAssignees p]
  else [].
Proof.
  unfold removeAssignee, canRemove.
  destruct (Js.includes processing userId); [reflexivity |].
  destruct (Js.truthy userId), (knownUser p userId); try reflexivity.
  cbn [negb orb andb]. destruct (Js.includes (safeAssignees p) userId); [| reflexivity].
  now destruct commitOk.
Qed.

Lemma removeAssignee_patch (p : Props) (processing : list string)
  (userId : string) (commitOk : bool) :
  patchSent (removeAssignee p processing userId commitOk) = canRemove p processing userId.
Proof.
  unfold removeAssignee, canRemove.
  destruct (Js.includes processing userId); [reflexivity |].
  destruct (Js.truthy userId), (knownUser p userId); try reflexivity.
  cbn [negb orb andb]. destruct (Js.includes (safeAssignees p) userId); [| reflexivity].
  now destruct commitOk.
Qed.



(** X23: a click in the menu.  The menu removes a user who is assigned and
    adds one who is not, so the two warnings of the handlers ("already
    assigned", "not assigned") are never raised through it; when a patch is
    sent, the first list handed to [onAssigneesChange] has the membership of
    the clicked user flipped and every other membership unchanged. *)
Theorem handleUserToggle_run (p : Props) (processing : list string) (userId : string)
  (commitOk : bool) :
  let run := handleUserToggle p processing userId commitOk in
  toast run <> Some UserAlreadyAssigned /\
  toast run <> Some UserNotAssigned /\
  (patchSent run = true ->
   exists l rest, assigneesChanges run = l :: rest /\
     (In userId l <-> ~ In userId (safeAssignees p)) /\
     (forall a, a <> userId -> (In a l <-> In a (safeAssignees p)))).
Proof.
  cbn zeta. unfold handleUserToggle.
  destruct (Js.includes processing userId) eqn:Ep.
  { cbn. repeat split; discriminate. }
  destruct (Js.includes (safeAssignees p) userId) eqn:Ea.
  - split; [| split].
    + unfold removeAssignee. rewrite Ep, Ea.
      destruct (negb (Js.truthy userId) || negb (knownUser p userId)); [discriminate |].
      destruct commitOk; discriminate.
    + unfold removeAssignee. rewrite Ep, Ea.
      destruct (negb (Js.truthy userId) || negb (knownUser p userId)); [discriminate |].
      destruct commitOk; discriminate.
    + rewrite removeAssignee_patch, removeAssignee_changes. intros ->.
      apply includes_In in Ea.
      exists (filter (fun id => negb (id =? userId)) (safeAssignees p)),
             (if commitOk then [] else [safeAssignees p]).
      split; [now destruct commitOk |]. split.
      * rewrite SelectionFacts.In_filter_neq. tauto.
      * intros a Hne. rewrite SelectionFacts.In_filter_neq. tauto.
  - split; [| split].
    + unfold addAssignee. rewrite Ep, Ea.
      destruct (negb (Js.truthy userId) || negb (knownUser p userId)); [discriminate |].
      destruct commitOk; discriminate.
    + unfold addAssignee. rewrite Ep, Ea.
      destruct (negb (Js.truthy userId) || negb (knownUser p userId)); [discriminate |].
      destruct commitOk; discriminate.
    + rewrite addAssignee_patch, addAssignee_changes. intros ->.
      apply includes_not_In in Ea.
      exists (safeAssignees p ++ [userId]), (if commitOk then [] else [safeAssignees p]).
      split; [now destruct commitOk |]. split.
      * rewrite in_app_iff. simpl. tauto.
      * intros a Hne. rewrite in_app_iff. simpl. split; [| tauto].
        intros [H | [H | []]]; [assumption | congruence].
Qed.



Lemma handleUserToggle_run_witness :
  exists l rest,
    assigneesChanges (handleUserToggle (mkProps [Samples.alice] (Some ["u2"]) "d1") [] "u1" true)
    = l :: rest /\
    (In "u1" l <-> ~ In "u1" ["u2"]) /\
    (forall a, a <> "u1" -> (In a l <-> In a ["u2"])).
Proof.
  destruct (handleUserToggle_run (mkProps [Samples.alice] (Some ["u2"]) "d1") [] "u1" true)
    as [_ [_ H]].
  apply H. reflexivity.
Defined.

End UserAssignmentFacts.

(** ** The assignees badge *)

Module AssigneesBadgeFacts.
Import AssigneesBadge.

Lemma hasMe_single (currentUser : option User.t) (a : string) :
  hasMe currentUser [a] = true <-> exists me, currentUser = Some me /\ a = User.id me.
Proof.
  unfold hasMe. destruct currentUser as [u |]; simpl.
  - rewrite orb_false_r, String.eqb_eq. split.
    + intros ->. now exists u.
    + intros (me & [= <-] & E). exact E.
  - split; [discriminate | intros (me & E & _); discriminate].
Qed.

(** X24: the badge.  It is absent exactly while the context is loading, in
    error or without metadata.  Otherwise its label is 'Unassigned' exactly
    when there is no assignee, and 'Assigned to Me' exactly when the current
    user is the only entry of the list; 'Me and n other(s)' counts the n >= 1
    other entries of a list that holds the current user; 'n assigned' counts
    all n >= 1 entries of a list that does not hold the current user. *)
Theorem badge_label (ctx : Context) (users : list AssignedUsers.ProjectUser)
  (currentUser : option User.t) :
  (AssigneesBadge ctx users currentUser = None <->
   metadata ctx = None \/ loading ctx = true \/ error ctx = true) /\
  (forall b m, AssigneesBadge ctx users currentUser = Some b ->
     metadata ctx = Some m ->
     let assignees := match Metadata.assignees m with Some l => l | None => [] end in
     (label b = Unassigned <-> assignees = []) /\
     (label b = AssignedToMe <->
      exists me, currentUser = Some me /\ assignees = [User.id me]) /\
     (forall n, label b = MeAndOthers n ->
        1 <= n /\ List.length assignees = S n /\ hasMe currentUser assignees = true) /\
     (forall n, label b = CountAssigned n ->
        1 <= n /\ List.length assignees = n /\ hasMe currentUser assignees = false)).
Proof.
  unfold AssigneesBadge. split.
  - destruct (metadata ctx) as [m |]; [| tauto].
    destruct (loading ctx), (error ctx); cbn [orb].
    1-3: split; [tauto | reflexivity].
    split; [| intros [H | [H | H]]; discriminate].
    destruct (negb (Js.hasLength (Metadata.assignees m))); discriminate.
  - intros b m Hb Hm. rewrite Hm in Hb.
    destruct (loading ctx || error ctx); [discriminate |].
    destruct (Metadata.assignees m) as [[| a l] |]; cbn [Js.hasLength negb] in Hb.
    1, 3: injection Hb as <-; cbn; repeat split; try discriminate; try tauto;
          intros (me & _ & E); discriminate.
    cbn zeta. cbn [List.length] in Hb. rewrite Nat.sub_succ, Nat.sub_0_r in Hb.
    destruct (hasMe currentUser (a :: l)) eqn:Eme; cbn [andb] in Hb.
    + destruct l as [| a' l']; cbn [List.length Nat.eqb Nat.ltb Nat.leb] in Hb;
        injection Hb as <-; cbn [label].
      * apply hasMe_single in Eme. destruct Eme as (me & Hcu & Ha).
        repeat split; try discriminate.
        -- intros _. exists me. split; [assumption | now rewrite Ha].
      * repeat split; try discriminate.
        -- intros (me & _ & E). discriminate.
        -- injection H as <-. simpl. lia.
        -- injection H as <-. reflexivity.
    + injection Hb as <-. cbn [label]. repeat split; try discriminate.
      * intros (me & Hcu & E). injection E as -> ->.
        assert (T : hasMe (Some me) [User.id me] = true)
          by (apply hasMe_single; now exists me).
        rewrite Hcu in Eme. congruence.
      * injection H as <-. simpl. lia.
      * injection H as <-. reflexivity.
Qed.

Lemma badge_label_witness :
  let me := User.mk "u1" None in
  let ctx := mkContext (Some (Metadata.mk "d1" "draft" (Some ["u1"]) None)) false false in
  exists b, AssigneesBadge ctx [] (Some me) = Some b /\ label b = AssignedToMe.
Proof.
  intros me ctx. exists (mkBadge AssignedToMe (Some EmptyString) (Some "primary")).
  split; [reflexivity |].
  destruct (badge_label ctx [] (Some me)) as [_ H].
  destruct (H (mkBadge AssignedToMe (Some EmptyString) (Some "primary"))
              (Metadata.mk "d1" "draft" (Some ["u1"]) None) eq_refl eq_refl)
    as [_ [K _]].
  apply K. exists me. split; reflexivity.
Defined.

End AssigneesBadgeFacts.

(** ** The transitions offered by the calendar and the quick-edit modal *)

Module TransitionsFacts.
Import Transitions.

Lemma In_lookup (states : list State.t) (ids : list string) (t : State.t) :
  In t (lookup states ids) <->
  exists transitionId, In transitionId ids /\
    find (fun state => State.id state =? transitionId) states = Some t.
Proof.
  unfold lookup. rewrite in_flat_map. split.
  - intros (found & Hf & Ht). apply in_map_iff in Hf. destruct Hf as (i & Hi & Hin).
    destruct found as [s |]; [| destruct Ht]. destruct Ht as [<- | []].
    now exists i.
  - intros (i & Hin & Hi). exists (Some t). split; [| now left].
    apply in_map_iff. now exists i.
Qed.

Lemma lookup_length (states : list State.t) (ids : list string) :
  List.length (lookup states ids) <= List.length ids.
Proof.
  unfold lookup. induction ids as [| i r IH]; simpl; [lia |].
  destruct (find _ states); simpl; lia.
Qed.

Lemma find_state (states : list State.t) (i : string) (t : State.t) :
  find (fun state => State.id state =? i) states = Some t ->
  In t states /\ State.id t = i.
Proof.
  intros H. apply find_some in H. destruct H as [Hin Heq].
  now apply String.eqb_eq in Heq.
Qed.

(** X25: the quick transitions.  Each state offered is a configured state,
    is named in the transition list of the document's current state and
    passes [canUserTransitionToState]; no more states are offered than the
    list names; a document whose state is not configured, or a session
    without a current user, is offered none; and the modal and the calendar
    compute the same list. *)
Theorem offered_transitions (states : list State.t) (currentUser : option User.t)
  (workflowState : string) (assignees : option (list string)) :
  getAvailableTransitions states currentUser workflowState assignees =
  getAvailableTransitionsForEventWithPermissions states currentUser workflowState assignees /\
  (forall offered,
     getAvailableTransitions states currentUser workflowState assignees = Some offered ->
     (forall t, In t offered ->
        In t states /\
        Permissions.canUserTransitionToState currentUser (Some t) assignees = true /\
        exists currentState ids,
          find (fun state => State.id state =? workflowState) states = Some currentState /\
          State.transitions currentState = Some ids /\ In (State.id t) ids) /\
     (currentUser = None -> offered = []) /\
     (forall currentState ids,
        find (fun state => State.id state =? workflowState) states = Some currentState ->
        State.transitions currentState = Some ids ->
        List.length offered <= List.length ids)) /\
  (find (fun state => State.id state =? workflowState) states = None ->
   getAvailableTransitions states currentUser workflowState assignees = Some []).
Proof.
  unfold getAvailableTransitionsForEventWithPermissions, getAvailableTransitionsForEvent,
    getAvailableTransitions.
  destruct (find (fun state => State.id state =? workflowState) states)
    as [currentState |] eqn:Ecur.
  2: { split; [reflexivity |]. split; [| reflexivity].
       intros offered [= <-]. split; [intros t0 [] |].
       split; [reflexivity | intros cs ids E; discriminate]. }
  destruct (State.transitions currentState) as [ids |] eqn:Eids.
  2: { split; [reflexivity |]. split; discriminate. }
  split; [reflexivity |]. split; [| discriminate].
  intros offered [= <-]. split; [| split].
  - intros t Ht. apply filter_In in Ht. destruct Ht as [Ht Hcan].
    apply In_lookup in Ht. destruct Ht as (i & Hi & Hfind).
    apply find_state in Hfind. destruct Hfind as [Hin Hid].
    repeat split; try assumption. exists currentState, ids. now rewrite Hid.
  - intros ->. apply SortFacts.filter_none. reflexivity.
  - intros cs ids' [= <-] E. rewrite Eids in E. injection E as <-.
    etransitivity; [apply filter_length_le | apply lookup_length].
Qed.

Lemma offered_transitions_witness :
  getAvailableTransitions [Samples.inReview; Samples.approved]
    (Some Samples.administrator) "inReview" (Some []) = Some [Samples.approved] /\
  In Samples.approved [Samples.inReview; Samples.approved] /\
  getAvailableTransitions [Samples.inReview; Samples.approved]
    (Some Samples.administrator) "draft" (Some []) = Some [].
Proof.
  destruct (offered_transitions [Samples.inReview; Samples.approved]
              (Some Samples.administrator) "inReview" (Some [])) as [_ [H _]].
  destruct (offered_transitions [Samples.inReview; Samples.approved]
              (Some Samples.administrator) "draft" (Some [])) as [_ [_ K]].
  split; [reflexivity |]. split.
  - destruct (H [Samples.approved] eq_refl) as [H1 _].
    apply (H1 Samples.approved). simpl. auto.
  - apply K. reflexivity.
Defined.

End TransitionsFacts.

(** ** Calendar events *)

Module CalendarFacts.
Import Calendar.

Lemma shown_selected (sel : list string) (doc : ScheduledDoc) :
  sel <> [] -> shown sel doc = true ->
  exists s, state doc = Some s /\ s <> EmptyString /\ In s sel /\
            workflowState (toEvent doc) = s.
Proof.
  intros Hsel H. unfold shown in H. destruct sel as [| x r]; [congruence |].
  cbn [Js.nonEmpty negb orb] in H. apply andb_true_iff in H. destruct H as [_ H].
  apply andb_true_iff in H. destruct H as [Ht Hin].
  destruct (state doc) as [s |] eqn:Es; [| discriminate].
  exists s. cbn [Js.truthyOpt] in Ht. repeat split.
  - intros ->. discriminate.
  - now apply includes_In.
  - unfold toEvent. cbn [workflowState]. rewrite Es. unfold Js.orElse. now rewrite Ht.
Qed.

Lemma shown_unselected (sel : list string) (doc : ScheduledDoc) :
  shown sel doc = true -> shown [] doc = true.
Proof.
  unfold shown. cbn [Js.nonEmpty negb orb]. rewrite andb_true_r.
  intros H. now apply andb_true_iff in H.
Qed.

(** X26: the events of the calendar.  While some workflow states are
    selected every event shown is in one of them; an event shown under a
    selection is also shown without one; every event shown has a non-empty
    scheduled date.  A row without a state is shown as a draft when nothing
    is selected, and is hidden by every selection, the selection of "draft"
    included. *)
Theorem events_under_selection (docs : list ScheduledDoc) (sel : list string) :
  (sel <> [] -> forall e, In e (events (Some docs) sel) -> In (workflowState e) sel) /\
  (forall e, In e (events (Some docs) sel) ->
     In e (events (Some docs) []) /\ date e <> EmptyString) /\
  (forall doc, In doc docs -> Js.truthyOpt (state doc) = false ->
     workflowState (toEvent doc) = "draft" /\
     (Js.truthyOpt (scheduledDateOf doc) = true ->
      In (toEvent doc) (events (Some docs) [])) /\
     (sel <> [] -> shown sel doc = false)).
Proof.
  unfold events. split; [| split].
  - intros Hsel e He. apply in_map_iff in He. destruct He as (d & <- & Hd).
    apply filter_In in Hd. destruct Hd as [_ Hd].
    destruct (shown_selected sel d Hsel Hd) as (s & _ & _ & Hin & ->). exact Hin.
  - intros e He. apply in_map_iff in He. destruct He as (d & <- & Hd).
    apply filter_In in Hd. destruct Hd as [Hin Hd]. split.
    + apply in_map. apply filter_In. split; [assumption |].
      now apply (shown_unselected sel).
    + unfold shown in Hd. apply andb_true_iff in Hd. destruct Hd as [Hs _].
      unfold toEvent. cbn [date].
      destruct (scheduledDateOf d) as [x |]; [| discriminate].
      intros ->. discriminate.
  - intros doc Hin Hst. split; [| split].
    + unfold toEvent. cbn [workflowState]. unfold Js.orElse.
      destruct (state doc) as [s |]; [| reflexivity].
      cbn [Js.truthyOpt] in Hst. now rewrite Hst.
    + intros Hs. apply in_map. apply filter_In. split; [assumption |].
      unfold shown. now rewrite Hs.
    + intros Hsel. unfold shown. destruct sel as [| x r]; [congruence |].
      cbn [Js.nonEmpty negb orb]. rewrite Hst. cbn [andb]. apply andb_false_r.
Qed.

Lemma events_under_selection_witness :
  In (toEvent Samples.unfiled) (events (Some [Samples.unfiled]) []) /\ shown ["draft"] Samples.unfiled = false.
Proof.
  destruct (events_under_selection [Samples.unfiled] ["draft"]) as [_ [_ H]].
  destruct (H Samples.unfiled (or_introl eq_refl) eq_refl) as [_ [K1 K2]].
  split; [now apply K1 | apply K2; discriminate].
Defined.

Lemma In_setAdd (s : list string) (x y : string) :
  In y (setAdd s x) <-> In y s \/ y = x.
Proof.
  unfold setAdd. destruct (Js.includes s x) eqn:E.
  - apply includes_In in E. split; [tauto | intros [H | ->]; assumption].
  - rewrite in_app_iff. simpl. intuition.
Qed.

Lemma NoDup_setAdd (s : list string) (x : string) : NoDup s -> NoDup (setAdd s x).
Proof.
  intros H. unfold setAdd. destruct (Js.includes s x) eqn:E; [assumption |].
  apply includes_not_In in E. apply NoDup_app; [assumption | repeat constructor; intros [] |].
  intros y Hy [<- | []]. contradiction.
Qed.

Lemma states_fold (docs : list ScheduledDoc) (acc : list string) :
  let step := fun states doc =>
                match state doc with
                | Some s => if Js.truthy s then setAdd states s else states
                | None => states
                end in
  (NoDup acc -> NoDup (fold_left step docs acc)) /\
  (forall s, In s (fold_left step docs acc) <->
             In s acc \/ exists doc, In doc docs /\ state doc = Some s /\ s <> EmptyString).
Proof.
  cbn zeta. revert acc. induction docs as [| d r IH]; intros acc; simpl.
  - split; [tauto |]. intros s. split; [tauto | intros [H | (doc & [] & _)]; assumption].
  - destruct (IH (match state d with
                  | Some s => if Js.truthy s then setAdd acc s else acc
                  | None => acc
                  end)) as [IH1 IH2].
    split.
    + intros Hnd. apply IH1. destruct (state d) as [s |]; [| assumption].
      destruct (Js.truthy s); [now apply NoDup_setAdd | assumption].
    + intros s. rewrite IH2. destruct (state d) as [x |] eqn:Ex.
      * destruct (Js.truthy x) eqn:Et.
        -- rewrite In_setAdd. split.
           ++ intros [[H | ->] | (doc & Hin & Hs)]; [tauto | | right; exists doc; tauto].
              right. exists d. repeat split; [now left | assumption |].
              intros ->. discriminate.
           ++ intros [H | (doc & [<- | Hin] & Hs & Hne)]; [tauto | | right; exists doc; tauto].
              left. right. congruence.
        -- split.
           ++ intros [H | (doc & Hin & Hs)]; [tauto | right; exists doc; tauto].
           ++ intros [H | (doc & [<- | Hin] & Hs & Hne)]; [tauto | | right; exists doc; tauto].
              exfalso. rewrite Ex in Hs. injection Hs as ->.
              unfold Js.truthy in Et. apply negb_false_iff, String.eqb_eq in Et. contradiction.
      * split.
        -- intros [H | (doc & Hin & Hs)]; [tauto | right; exists doc; tauto].
        -- intros [H | (doc & [<- | Hin] & Hs & Hne)]; [tauto | congruence |].
           right. exists doc. tauto.
Qed.

(** X27: the workflow states offered as filters are exactly the non-empty
    states of the rows, each listed once, in ascending order. *)
Theorem available_states (docs : list ScheduledDoc) :
  NoDup (availableWorkflowStates (Some docs)) /\
  StronglySorted (fun a b => String.compare a b <> Gt) (availableWorkflowStates (Some docs)) /\
  (forall s, In s (availableWorkflowStates (Some docs)) <->
             exists doc, In doc docs /\ state doc = Some s /\ s <> EmptyString).
Proof.
  unfold availableWorkflowStates.
  destruct (states_fold docs []) as [Hnd Hin]. cbn zeta in Hnd, Hin.
  split; [| split].
  - apply (Permutation_NoDup (Permutation_sym (SortFacts.sort_Permutation _ _))).
    apply Hnd. constructor.
  - apply Sorted_StronglySorted.
    + intros a b c. apply SortFacts.compare_le_trans.
    + apply (SortFacts.sort_Sorted String.compare String.compare_antisym).
  - intros s. rewrite In_sort, Hin. simpl. tauto.
Qed.

End CalendarFacts.

(** ** The card of a document *)

Module CardFacts.
Import Card.

Lemma someError_nonEmpty (validation : list Marker) :
  someError validation = true -> Js.nonEmpty validation = true.
Proof. destruct validation; [discriminate | reflexivity]. Qed.

(** X28: a card is shown in the critical tone exactly when the user may drop
    on its column, the card has a document id, its state requires
    validation, validation has finished and reports an error.  A critical
    card is then also reported as invalid and loses its drag handle; and the
    card of a user who may not drop on the column is never tinted by
    dragging or validation. *)
Theorem card_critical (isDarkMode userRoleCanDrop : bool) (documentId : option string)
  (isPatching isDragging requireValidation isValidating : bool)
  (validation : list Marker) :
  let tone := cardTone isDarkMode userRoleCanDrop documentId isPatching isDragging
                requireValidation isValidating validation in
  (tone = ToneCritical <->
   userRoleCanDrop = true /\ Js.truthyOpt documentId = true /\
   requireValidation = true /\ isValidating = false /\ someError validation = true) /\
  (tone = ToneCritical ->
   reportValidation isValidating validation = Selection.ADD /\
   hasError isValidating validation = true) /\
  (reportValidation isValidating validation = Selection.ADD <->
   hasError isValidating validation = true) /\
  (userRoleCanDrop = false -> tone = ToneDefault \/ tone = ToneTransparent).
Proof.
  cbn zeta.
  assert (Hcrit :
    cardTone isDarkMode userRoleCanDrop documentId isPatching isDragging
      requireValidation isValidating validation = ToneCritical <->
    userRoleCanDrop = true /\ Js.truthyOpt documentId = true /\
    requireValidation = true /\ isValidating = false /\ someError validation = true).
  { unfold cardTone.
    destruct userRoleCanDrop; cbn [negb].
    2: { split; [destruct isDarkMode; discriminate | intros (H & _); discriminate]. }
    destruct (Js.truthyOpt documentId); cbn [negb].
    2: { split; [destruct isDarkMode; discriminate | intros (_ & H & _); discriminate]. }
    destruct requireValidation; cbn [andb].
    2: { split; [| intros (_ & _ & H & _); discriminate].
         destruct isDragging, isPatching, isDarkMode; discriminate. }
    destruct isValidating; cbn [negb andb].
    { split; [| intros (_ & _ & _ & H & _); discriminate].
      destruct isDragging, isPatching, isDarkMode; discriminate. }
    destruct (someError validation) eqn:Es.
    - rewrite (someError_nonEmpty _ Es). tauto.
    - split; [| intros (_ & _ & _ & _ & H); discriminate].
      destruct (Js.nonEmpty validation); [discriminate |].
      destruct isDragging, isPatching, isDarkMode; discriminate. }
  assert (Hrep : reportValidation isValidating validation = Selection.ADD <->
                 hasError isValidating validation = true).
  { unfold reportValidation, hasError. destruct isValidating; cbn [negb andb].
    - split; discriminate.
    - destruct (someError validation) eqn:Es.
      + rewrite (someError_nonEmpty _ Es). tauto.
      + destruct (Js.nonEmpty validation); split; discriminate. }
  split; [exact Hcrit |]. split; [| split; [exact Hrep |]].
  - intros H. apply Hcrit in H. destruct H as (_ & _ & _ & -> & Hs).
    assert (He : hasError false validation = true) by exact Hs.
    split; [now apply Hrep | exact He].
  - intros ->. unfold cardTone. cbn [negb]. destruct isDarkMode; auto.
Qed.

Lemma card_critical_witness :
  reportValidation false [mkMarker "error"] = Selection.ADD /\
  hasError false [mkMarker "error"] = true.
Proof.
  destruct (card_critical false true (Some "d1") false true true false [mkMarker "error"])
    as [_ [H _]].
  apply H. reflexivity.
Defined.

(** X29: the Complete button is rendered exactly on the cards that are in
    the last configured state, whatever the number of configured states:
    three states or fewer put it in the action bar, more put it below. *)
Theorem complete_button_on_last_state (states : list State.t) (item : Doc.t) :
  showsCompleteButton states item = isLastState states item /\
  (states <> [] ->
   exists last, Js.lastOpt states = Some last /\
     (showsCompleteButton states item = Some true <->
      exists m, Doc._metadata item = Some m /\ Metadata.state m = State.id last)).
Proof.
  unfold showsCompleteButton, isLastState. split.
  - destruct (Js.lastOpt states) as [s |]; [| reflexivity]. f_equal.
    destruct (match Doc._metadata item with Some m => _ | None => false end);
      [| reflexivity].
    cbn [andb]. destruct (Nat.leb_spec (List.length states) 3) as [H | H].
    + reflexivity.
    + cbn [orb]. apply Nat.ltb_lt. exact H.
  - intros Hne. destruct (Js.lastOpt states) as [s |] eqn:El.
    + exists s. split; [reflexivity |].
      destruct (Doc._metadata item) as [m |].
      * destruct (String.eqb_spec (State.id s) (Metadata.state m)) as [E | E].
        -- cbn [andb]. split.
           ++ intros _. exists m. split; [reflexivity | now symmetry].
           ++ intros _. f_equal.
              destruct (Nat.leb_spec (List.length states) 3) as [H | H];
                [reflexivity | cbn [orb]; now apply Nat.ltb_lt].
        -- cbn [andb orb]. split; [discriminate |].
           intros (m' & [= <-] & E'). congruence.
      * cbn [andb orb]. split; [discriminate | intros (m' & E' & _); discriminate].
    + exfalso. unfold Js.lastOpt in El. apply nth_error_None in El.
      destruct states; [congruence | simpl in El; lia].
Qed.

Lemma complete_button_on_last_state_witness :
  exists last, Js.lastOpt [Examples.draft; Examples.review] = Some last /\
    (showsCompleteButton [Examples.draft; Examples.review]
       (Examples.card "d1" "review" []) = Some true <->
     exists m, Doc._metadata (Examples.card "d1" "review" []) = Some m /\
               Metadata.state m = State.id last).
Proof.
  destruct (complete_button_on_last_state [Examples.draft; Examples.review]
              (Examples.card "d1" "review" [])) as [_ H].
  apply H. discriminate.
Defined.

End CardFacts.

(** ** The hooks the plugin installs *)

Module PluginHooksFacts.
Import PluginHooks.

(** X30: the plugin never drops or reorders the actions and badges that
    were there: they end the new list, in their order.  For a schema type
    that is not configured, and for badges also when the document id is
    missing, nothing is added; otherwise the workflow actions come first,
    with one update action per configured state, in configuration order. *)
Theorem hooks_keep_existing {A B} (p : Plugin.PluginOptions) (prevA : list A)
  (prevB : list B) (schemaType : string) (documentId : option string) :
  (exists added, actions p prevA schemaType = added ++ map ExistingAction prevA) /\
  (exists added,
     badges p prevB schemaType documentId = added ++ map ExistingBadge prevB) /\
  (~ In schemaType (Plugin.plugin_schemaTypes p) ->
   actions p prevA schemaType = map ExistingAction prevA /\
   badges p prevB schemaType documentId = map ExistingBadge prevB) /\
  (Js.truthyOpt documentId = false ->
   badges p prevB schemaType documentId = map ExistingBadge prevB) /\
  (In schemaType (Plugin.plugin_schemaTypes p) ->
   actions p prevA schemaType =
   [BeginWorkflow; AssignWorkflow; ScheduleWorkflow]
   ++ map UpdateWorkflow (Plugin.plugin_states p)
   ++ CompleteWorkflow :: map ExistingAction prevA /\
   List.length (actions p prevA schemaType) =
   List.length prevA + List.length (Plugin.plugin_states p) + 4).
Proof.
  unfold actions, badges.
  destruct (Js.includes (Plugin.plugin_schemaTypes p) schemaType) eqn:E; cbn [negb].
  - apply includes_In in E. split; [| split; [| split; [| split]]].
    + eexists. rewrite !app_assoc. reflexivity.
    + destruct documentId as [d |]; [destruct (Js.truthy d) |];
        [eexists; reflexivity | now exists [] | now exists []].
    + intros H. contradiction.
    + intros H. destruct documentId as [d |]; [| reflexivity].
      cbn [Js.truthyOpt] in H. now rewrite H.
    + intros _. split; [reflexivity |].
      simpl. rewrite length_app. simpl. rewrite !length_map. lia.
  - apply includes_not_In in E. split; [| split; [| split; [| split]]].
    + now exists [].
    + now exists [].
    + intros _. split; reflexivity.
    + intros _. reflexivity.
    + intros H. contradiction.
Qed.

Lemma hooks_keep_existing_witness :
  let p := Plugin.mkPlugin "sanity-plugin-workflow-manager" ["post"]
             [Examples.draft; Examples.review] in
  actions p ["publish"] "page" = [ExistingAction "publish"] /\
  List.length (actions p ["publish"] "post") = 7.
Proof.
  intros p.
  destruct (hooks_keep_existing p ["publish"] (@nil string) "page" None)
    as [_ [_ [H _]]].
  destruct (hooks_keep_existing p ["publish"] (@nil string) "post" None)
    as [_ [_ [_ [_ K]]]].
  split.
  - apply H. simpl. intros [E | []]. discriminate.
  - apply K. simpl. auto.
Defined.

End PluginHooksFacts.
